(** * Sistema-Snippets: the snippet dashboard and the snippet form

    A shallow embedding of the two React components that hold the logic of
    the application:

    - the dashboard ([Dashboard], with [applyFilters], [loadSnippets],
      [loadLanguages], [loadTags], [handleDelete], [addTagFilter], ...);
    - the snippet form ([SnippetForm], with [addTag], [removeTag],
      [handleSubmit], ...).

    Conventions of the embedding.

    - A JavaScript string is the list of its UTF-16 code units.
    - A JavaScript number that holds a database key is an integer ([Z]);
      [NaN], which only [parseInt] produces here, is [None].
    - [String.prototype.toLowerCase] is the Unicode case mapping of the host;
      it is a parameter of the development (class [UnicodeCase]), so every
      theorem holds whatever that mapping is.
    - A component's state is a record; an event handler reads the values of
      the render it was created in (its snapshot) and writes through the
      setters, which act on the current store.
    - The hosted database is an oracle answering the requests in the order
      they are sent. A handler runs to its end before the next event; the
      concurrent loads of [loadInitialData] are not part of the development. *)

From Stdlib Require Import ZArith NArith List String Ascii Bool Lia.
From stdpp Require Import base decidable option numbers list.
Import ListNotations.

Local Open Scope Z_scope.

(** ** JavaScript strings *)

Definition char16 := N.
Definition jsstring := list char16.

(** A literal of the source, as code units. *)
Definition js (s : string) : jsstring :=
  List.map N_of_ascii (list_ascii_of_string s).

(** The case mapping behind [toLowerCase]. *)
Class UnicodeCase := { toLowerCase : jsstring -> jsstring }.

(** ToBoolean on a string: only the empty string is falsy. *)
Definition truthyString (s : jsstring) : bool :=
  match s with
  | [] => false
  | _ :: _ => true
  end.

(** [a === b] on strings. *)
Definition strictEqString (a b : jsstring) : bool := bool_decide (a = b).

(** WhiteSpace and LineTerminator code points (ECMAScript StrWhiteSpaceChar):
    TAB, LF, VT, FF, CR, SP, NBSP, OGHAM SPACE MARK, U+2000..U+200A,
    LS, PS, NNBSP, MMSP, IDEOGRAPHIC SPACE, ZWNBSP. *)
Definition isWhiteSpace (c : char16) : bool :=
  ((9 <=? c) && (c <=? 13))%N
  || (c =? 32)%N || (c =? 160)%N || (c =? 5760)%N
  || ((8192 <=? c) && (c <=? 8202))%N
  || (c =? 8232)%N || (c =? 8233)%N || (c =? 8239)%N || (c =? 8287)%N
  || (c =? 12288)%N || (c =? 65279)%N.

Fixpoint trimStart (s : jsstring) : jsstring :=
  match s with
  | [] => []
  | c :: r => if isWhiteSpace c then trimStart r else s
  end.

Definition trimEnd (s : jsstring) : jsstring := rev (trimStart (rev s)).

(** [s.trim()] *)
Definition trim (s : jsstring) : jsstring := trimEnd (trimStart s).

(** [q] occurs in [s] at index 0. *)
Fixpoint startsWith (s q : jsstring) : bool :=
  match q, s with
  | [], _ => true
  | _ :: _, [] => false
  | d :: q', c :: s' => (c =? d)%N && startsWith s' q'
  end.

(** [s.includes(q)]: [q] occurs in [s] at some index. *)
Fixpoint includes (s q : jsstring) : bool :=
  startsWith s q ||
  match s with
  | [] => false
  | _ :: s' => includes s' q
  end.

(** ** JavaScript numbers: [parseInt] and [Number.prototype.toString] *)

(** The value of a digit character, in any radix up to 36. *)
Definition digitValue (c : char16) : option N :=
  if ((48 <=? c) && (c <=? 57))%N then Some (c - 48)%N
  else if ((97 <=? c) && (c <=? 122))%N then Some (c - 87)%N
  else if ((65 <=? c) && (c <=? 90))%N then Some (c - 55)%N
  else None.

Definition radixDigit (R : N) (c : char16) : option N :=
  match digitValue c with
  | Some d => if (d <? R)%N then Some d else None
  | None => None
  end.

(** The longest prefix of radix-[R] digits, read as a number; [acc] is what
    has been read so far, [None] when no digit has been seen. *)
Fixpoint parseDigits (R : N) (s : jsstring) (acc : option N) : option N :=
  match s with
  | [] => acc
  | c :: r =>
      match radixDigit R c with
      | Some d =>
          parseDigits R r
            (Some (match acc with Some a => a * R + d | None => d end)%N)
      | None => acc
      end
  end.

(** [parseInt(s)] with no radix argument: leading white space is skipped, a
    sign is read, a [0x]/[0X] prefix selects radix 16, and the longest prefix
    of digits gives the value; [None] is [NaN]. *)
Definition parseInt (s : jsstring) : option Z :=
  let s := trimStart s in
  let '(sign, s) :=
    match s with
    | c :: r =>
        if (c =? 45)%N then (-1, r)
        else if (c =? 43)%N then (1, r)
        else (1, s)
    | [] => (1, s)
    end in
  let '(R, s) :=
    match s with
    | c :: x :: r =>
        if ((c =? 48) && ((x =? 120) || (x =? 88)))%N then (16%N, r)
        else (10%N, s)
    | _ => (10%N, s)
    end in
  match parseDigits R s None with
  | Some n => Some (sign * Z.of_N n)
  | None => None
  end.

(** Decimal digits of [n], most significant first, in front of [acc]. *)
Fixpoint digitsOf (fuel : nat) (n : N) (acc : jsstring) : jsstring :=
  match fuel with
  | O => acc
  | S fuel' =>
      let acc' := (48 + n mod 10)%N :: acc in
      if (n / 10 =? 0)%N then acc' else digitsOf fuel' (n / 10)%N acc'
  end.

(** [n.toString()] for an integer [n]. *)
Definition Number_toString (n : Z) : jsstring :=
  let m := Z.to_N (Z.abs n) in
  (if n <? 0 then [45%N] else []) ++ digitsOf (S (N.to_nat (N.log2 m))) m [].

(** [n === m] where [m] may be [NaN]. *)
Definition strictEqNumber (n : Z) (m : option Z) : bool :=
  match m with
  | Some k => n =? k
  | None => false
  end.

(** ToBoolean on a number: [0] (and [NaN]) are falsy. *)
Definition truthyNumber (n : Z) : bool := negb (n =? 0).

(** Values that are a boolean or [undefined], as an optional chain yields
    them; [None] is [undefined]. *)
Definition optChain {A B : Type} (o : option A) (f : A -> B) : option B :=
  match o with
  | Some a => Some (f a)
  | None => None
  end.

Definition ToBoolean (v : option bool) : bool :=
  match v with
  | Some b => b
  | None => false
  end.

(** [a || b]: [a] when it is truthy, else [b]. *)
Definition jsOr (a b : option bool) : option bool :=
  if ToBoolean a then a else b.

(** ** Data model *)

Module Language.
Record t := mk { id_linguagem : Z; nome : jsstring }.
End Language.

Record Tag := { id_tag : Z; nome : jsstring }.

(** An element of [snippet_tags]: an object with the one field [tags]. *)
Record SnippetTag := { tags : Tag }.

Record Snippet := {
  id_snippet : Z;
  titulo : jsstring;
  descricao : option jsstring;
  codigo : jsstring;
  criado_em : jsstring;
  id_linguagem : Z;
  linguagens : Language.t;
  snippet_tags : list SnippetTag
}.

#[global] Instance Language_eq_dec : EqDecision Language.t.
Proof. solve_decision. Defined.

#[global] Instance Tag_eq_dec : EqDecision Tag.
Proof. solve_decision. Defined.

#[global] Instance SnippetTag_eq_dec : EqDecision SnippetTag.
Proof. solve_decision. Defined.

#[global] Instance Snippet_eq_dec : EqDecision Snippet.
Proof. solve_decision. Defined.

(** ** The dashboard's filter *)

Section Filter.
Context `{UnicodeCase}.

(** The callback of the text filter, as a JavaScript value. *)
Definition textCallback (searchTerm : jsstring) (snippet : Snippet) : option bool :=
  jsOr
    (jsOr (Some (includes (toLowerCase (titulo snippet)) (toLowerCase searchTerm)))
       (optChain (descricao snippet)
          (fun d => includes (toLowerCase d) (toLowerCase searchTerm))))
    (Some (includes (toLowerCase (codigo snippet)) (toLowerCase searchTerm))).

(** Filtro por termo de busca *)
Definition textFilter (searchTerm : jsstring) (filtered : list Snippet) : list Snippet :=
  if truthyString searchTerm
  then List.filter (fun snippet => ToBoolean (textCallback searchTerm snippet)) filtered
  else filtered.

(** Filtro por linguagem *)
Definition languageFilter (selectedLanguage : jsstring) (filtered : list Snippet) : list Snippet :=
  if truthyString selectedLanguage && negb (strictEqString selectedLanguage (js "all"))
  then List.filter
         (fun snippet => strictEqNumber (id_linguagem snippet) (parseInt selectedLanguage))
         filtered
  else filtered.

(** Filtro por tags *)
Definition tagFilter (selectedTags : list Tag) (filtered : list Snippet) : list Snippet :=
  if (0 <? length selectedTags)%nat
  then List.filter
         (fun snippet =>
            forallb
              (fun selectedTag =>
                 existsb (fun st => id_tag (tags st) =? id_tag selectedTag)
                   (snippet_tags snippet))
              selectedTags)
         filtered
  else filtered.

(** The list [applyFilters] hands to [setFilteredSnippets]. *)
Definition applyFilters (snippets : list Snippet) (searchTerm selectedLanguage : jsstring)
    (selectedTags : list Tag) : list Snippet :=
  let filtered := snippets in
  let filtered := textFilter searchTerm filtered in
  let filtered := languageFilter selectedLanguage filtered in
  let filtered := tagFilter selectedTags filtered in
  filtered.

End Filter.

(** A case mapping for concrete runs on ASCII text, where it agrees with the
    host's. *)
Definition asciiCase : UnicodeCase :=
  {| toLowerCase := List.map (fun c => if ((65 <=? c) && (c <=? 90))%N then (c + 32)%N else c) |}.

(** ** Component state *)

(** The [useState] cells of the dashboard. *)
Module DashboardState.
Record t := mk {
  snippets : list Snippet;
  filteredSnippets : list Snippet;
  languages : list Language.t;
  allTags : list Tag;
  loading : bool;
  showForm : bool;
  editingSnippet : option Snippet;
  searchTerm : jsstring;
  selectedLanguage : jsstring;
  selectedTags : list Tag
}.

Definition initial : t :=
  mk [] [] [] [] true false None [] (js "all") [].

Definition with_snippets (v : list Snippet) (s : t) : t :=
  mk v (filteredSnippets s) (languages s) (allTags s) (loading s) (showForm s)
     (editingSnippet s) (searchTerm s) (selectedLanguage s) (selectedTags s).
Definition with_filteredSnippets (v : list Snippet) (s : t) : t :=
  mk (snippets s) v (languages s) (allTags s) (loading s) (showForm s)
     (editingSnippet s) (searchTerm s) (selectedLanguage s) (selectedTags s).
Definition with_languages (v : list Language.t) (s : t) : t :=
  mk (snippets s) (filteredSnippets s) v (allTags s) (loading s) (showForm s)
     (editingSnippet s) (searchTerm s) (selectedLanguage s) (selectedTags s).
Definition with_allTags (v : list Tag) (s : t) : t :=
  mk (snippets s) (filteredSnippets s) (languages s) v (loading s) (showForm s)
     (editingSnippet s) (searchTerm s) (selectedLanguage s) (selectedTags s).
Definition with_loading (v : bool) (s : t) : t :=
  mk (snippets s) (filteredSnippets s) (languages s) (allTags s) v (showForm s)
     (editingSnippet s) (searchTerm s) (selectedLanguage s) (selectedTags s).
Definition with_showForm (v : bool) (s : t) : t :=
  mk (snippets s) (filteredSnippets s) (languages s) (allTags s) (loading s) v
     (editingSnippet s) (searchTerm s) (selectedLanguage s) (selectedTags s).
Definition with_editingSnippet (v : option Snippet) (s : t) : t :=
  mk (snippets s) (filteredSnippets s) (languages s) (allTags s) (loading s) (showForm s)
     v (searchTerm s) (selectedLanguage s) (selectedTags s).
Definition with_searchTerm (v : jsstring) (s : t) : t :=
  mk (snippets s) (filteredSnippets s) (languages s) (allTags s) (loading s) (showForm s)
     (editingSnippet s) v (selectedLanguage s) (selectedTags s).
Definition with_selectedLanguage (v : jsstring) (s : t) : t :=
  mk (snippets s) (filteredSnippets s) (languages s) (allTags s) (loading s) (showForm s)
     (editingSnippet s) (searchTerm s) v (selectedTags s).
Definition with_selectedTags (v : list Tag) (s : t) : t :=
  mk (snippets s) (filteredSnippets s) (languages s) (allTags s) (loading s) (showForm s)
     (editingSnippet s) (searchTerm s) (selectedLanguage s) v.
End DashboardState.

(** The [useState] cells of the snippet form. *)
Module FormState.
Record FormData := mkData {
  titulo : jsstring;
  descricao : jsstring;
  codigo : jsstring;
  id_linguagem : Z
}.

Record t := mk {
  loading : bool;
  languages : list Language.t;
  allTags : list Tag;
  selectedTags : list Tag;
  newTag : jsstring;
  formData : FormData
}.

Definition initial : t := mk false [] [] [] [] (mkData [] [] [] 0).

Definition with_loading (v : bool) (s : t) : t :=
  mk v (languages s) (allTags s) (selectedTags s) (newTag s) (formData s).
Definition with_languages (v : list Language.t) (s : t) : t :=
  mk (loading s) v (allTags s) (selectedTags s) (newTag s) (formData s).
Definition with_allTags (v : list Tag) (s : t) : t :=
  mk (loading s) (languages s) v (selectedTags s) (newTag s) (formData s).
Definition with_selectedTags (v : list Tag) (s : t) : t :=
  mk (loading s) (languages s) (allTags s) v (newTag s) (formData s).
Definition with_newTag (v : jsstring) (s : t) : t :=
  mk (loading s) (languages s) (allTags s) (selectedTags s) v (formData s).
Definition with_formData (v : FormData) (s : t) : t :=
  mk (loading s) (languages s) (allTags s) (selectedTags s) (newTag s) v.
End FormState.

(** ** The outside world: notifications, the signed-in user, the database *)

(** What a [catch] clause receives; only [message] is ever read. *)
Record JSError := { message : jsstring }.

Record Toast := {
  title : jsstring;
  description : jsstring;
  variant : option jsstring
}.

Module User.
Record t := mk { id : jsstring }.
End User.

(** The queries the two components build with the database client. *)
Inductive Request :=
| SelectSnippets (id_usuario : option Z)
| SelectLinguagens
| SelectTags
| InsertTag (nome : jsstring)
| DeleteSnippetTags (id_snippet : option Z)
| DeleteSnippet (id_snippet : Z)
| UpdateSnippet (id_snippet : option Z) (titulo : jsstring) (descricao : option jsstring)
    (codigo : jsstring) (id_linguagem : Z)
| InsertSnippet (titulo : jsstring) (descricao : option jsstring) (codigo : jsstring)
    (id_linguagem : Z) (id_usuario : option Z)
| InsertSnippetTags (rows : list (option Z * Z)).

(** The row [insert(...).select().single()] returns; only its key is read. *)
Record InsertedSnippet := { inserted_id_snippet : Z }.

(** The type of [data] in a successful answer. *)
Definition Reply (r : Request) : Type :=
  match r with
  | SelectSnippets _ => list Snippet
  | SelectLinguagens => list Language.t
  | SelectTags => list Tag
  | InsertTag _ => Tag
  | InsertSnippet _ _ _ _ _ => InsertedSnippet
  | DeleteSnippetTags _ | DeleteSnippet _ | UpdateSnippet _ _ _ _ _
  | InsertSnippetTags _ => unit
  end.

(** The client's answer [{ data, error }]: exactly one of the two is set. *)
Inductive PostgrestResponse (X : Type) :=
| Failure (error : JSError)
| Success (data : X).
Arguments Failure {X} error.
Arguments Success {X} data.

(** A settled promise. *)
Inductive Settled (X : Type) :=
| Rejected (reason : JSError)
| Fulfilled (value : X).
Arguments Rejected {X} reason.
Arguments Fulfilled {X} value.

(** The database, seen from the client: the answer to the [n]-th request. *)
Definition Backend := forall (n : nat) (r : Request), Settled (PostgrestResponse (Reply r)).

Record Store := mkStore {
  dashboard : DashboardState.t;
  form : FormState.t;
  toasts : list Toast;
  sent : list Request
}.

(** ** Handlers as computations over the store

    A thrown exception does not undo the writes made before it, so the store
    is returned in both cases. *)

Inductive Completion (A : Type) :=
| Normal (a : A)
| Throw (e : JSError).
Arguments Normal {A} a.
Arguments Throw {A} e.

Definition Task (A : Type) : Type := Backend -> Store -> Completion A * Store.

Definition ret {A : Type} (a : A) : Task A := fun _ w => (Normal a, w).

Definition bind {A B : Type} (c : Task A) (k : A -> Task B) : Task B :=
  fun b w =>
    match c b w with
    | (Normal a, w') => k a b w'
    | (Throw e, w') => (Throw e, w')
    end.

Definition throw {A : Type} (e : JSError) : Task A := fun _ w => (Throw e, w).

(** [try { body } catch (error) { handler }] *)
Definition tryCatch {A : Type} (body : Task A) (handler : JSError -> Task A) : Task A :=
  fun b w =>
    match body b w with
    | (Normal a, w') => (Normal a, w')
    | (Throw e, w') => handler e b w'
    end.

(** [try { body } finally { final }] *)
Definition tryFinally {A : Type} (body : Task A) (final : Task unit) : Task A :=
  fun b w =>
    match body b w with
    | (r, w') =>
        match final b w' with
        | (Normal _, w'') => (r, w'')
        | (Throw e, w'') => (Throw e, w'')
        end
    end.

Declare Scope task_scope.
Delimit Scope task_scope with task.
Bind Scope task_scope with Task.
Notation "x <- c ;; k" := (bind c (fun x => k))
  (at level 100, c at next level, right associativity) : task_scope.
Notation "c ;; k" := (bind c (fun _ => k))
  (at level 100, right associativity) : task_scope.
Local Open Scope task_scope.

(** [await] on a query: the request goes out, the answer comes back; a
    rejected promise throws. *)
Definition await (r : Request) : Task (PostgrestResponse (Reply r)) :=
  fun b w =>
    let w' := mkStore (dashboard w) (form w) (toasts w) (sent w ++ [r]) in
    match b (length (sent w)) r with
    | Rejected e => (Throw e, w')
    | Fulfilled v => (Normal v, w')
    end.

Definition toast (t : Toast) : Task unit :=
  fun _ w => (Normal tt, mkStore (dashboard w) (form w) (toasts w ++ [t]) (sent w)).

Definition modifyDashboard (f : DashboardState.t -> DashboardState.t) : Task unit :=
  fun _ w => (Normal tt, mkStore (f (dashboard w)) (form w) (toasts w) (sent w)).

Definition modifyForm (f : FormState.t -> FormState.t) : Task unit :=
  fun _ w => (Normal tt, mkStore (dashboard w) (f (form w)) (toasts w) (sent w)).

(** The store a handler leaves behind. *)
Definition exec {A : Type} (c : Task A) (b : Backend) (w : Store) : Store := snd (c b w).

(** Whether a computation ends by throwing. *)
Definition throws {A : Type} (c : Task A) (b : Backend) (w : Store) (e : JSError) : Prop :=
  fst (c b w) = Throw e.

(** Reading a property of [null] or [undefined] is a TypeError. *)
Definition nonNull {A : Type} (o : option A) (prop : jsstring) : Task A :=
  match o with
  | Some a => ret a
  | None =>
      throw {| message := js "Cannot read properties of null (reading '" ++ prop ++ js "')" |}
  end.

Definition destructive : option jsstring := Some (js "destructive").

(** ** The dashboard's handlers *)

Module Dashboard.
Import DashboardState.

Definition setSnippets v := modifyDashboard (with_snippets v).
Definition setFilteredSnippets v := modifyDashboard (with_filteredSnippets v).
Definition setLanguages v := modifyDashboard (with_languages v).
Definition setAllTags v := modifyDashboard (with_allTags v).
Definition setLoading v := modifyDashboard (with_loading v).
Definition setShowForm v := modifyDashboard (with_showForm v).
Definition setEditingSnippet v := modifyDashboard (with_editingSnippet v).
Definition setSearchTerm v := modifyDashboard (with_searchTerm v).
Definition setSelectedLanguage v := modifyDashboard (with_selectedLanguage v).
Definition setSelectedTags v := modifyDashboard (with_selectedTags v).

(** Runs a handler of the current render. *)
Definition onRender {A : Type} (h : DashboardState.t -> Task A) : Task A :=
  fun b w => h (dashboard w) b w.

Definition loadSnippets_body (user : option User.t) : Task unit :=
  u <- nonNull user (js "id") ;;
  r <- await (SelectSnippets (parseInt (User.id u))) ;;
  match r with
  | Failure error => throw error
  | Success data => setSnippets data (* data || [] : an array is truthy *)
  end.

Definition loadSnippets (user : option User.t) : Task unit :=
  tryCatch (loadSnippets_body user)
    (fun error =>
       toast {| title := js "Erro ao carregar snippets";
                description := message error;
                variant := destructive |}).

Definition loadLanguages_body : Task unit :=
  r <- await SelectLinguagens ;;
  match r with
  | Failure error => throw error
  | Success data => setLanguages data
  end.

Definition loadLanguages : Task unit :=
  tryCatch loadLanguages_body
    (fun error =>
       toast {| title := js "Erro ao carregar linguagens";
                description := message error;
                variant := destructive |}).

Definition loadTags_body : Task unit :=
  r <- await SelectTags ;;
  match r with
  | Failure error => throw error
  | Success data => setAllTags data
  end.

Definition loadTags : Task unit :=
  tryCatch loadTags_body
    (fun error =>
       toast {| title := js "Erro ao carregar tags";
                description := message error;
                variant := destructive |}).

Section WithCase.
Context `{UnicodeCase}.

(** The effect that runs whenever the snippets or a criterion change. *)
Definition applyFiltersEffect (r : DashboardState.t) : Task unit :=
  setFilteredSnippets
    (applyFilters (snippets r) (searchTerm r) (selectedLanguage r) (selectedTags r)).

End WithCase.

Definition handleEdit (snippet : Snippet) : Task unit :=
  setEditingSnippet (Some snippet) ;;
  setShowForm true.

(** The answer of the first deletion is not looked at. *)
Definition handleDelete_body (user : option User.t) (id : Z) : Task unit :=
  _ <- await (DeleteSnippetTags (Some id)) ;;
  r <- await (DeleteSnippet id) ;;
  match r with
  | Failure error => throw error
  | Success _ =>
      toast {| title := js "Snippet exclu" ++ [237%N] ++ js "do";
               description := js "O snippet foi removido com sucesso";
               variant := None |} ;;
      loadSnippets user
  end.

Definition handleDelete (user : option User.t) (id : Z) : Task unit :=
  tryCatch (handleDelete_body user id)
    (fun error =>
       toast {| title := js "Erro ao excluir";
                description := message error;
                variant := destructive |}).

Definition handleFormClose : Task unit :=
  setShowForm false ;;
  setEditingSnippet None.

Definition handleFormSave (user : option User.t) : Task unit :=
  loadSnippets user.

Definition addTagFilter (r : DashboardState.t) (tag : Tag) : Task unit :=
  if negb (bool_decide (is_Some (List.find (fun t => id_tag t =? id_tag tag) (selectedTags r))))
  then setSelectedTags (selectedTags r ++ [tag])
  else ret tt.

Definition removeTagFilter (r : DashboardState.t) (tagId : Z) : Task unit :=
  setSelectedTags (List.filter (fun tag => negb (id_tag tag =? tagId)) (selectedTags r)).

Definition clearFilters : Task unit :=
  setSearchTerm [] ;;
  setSelectedLanguage (js "all") ;;
  setSelectedTags [].

End Dashboard.

(** ** The snippet form's handlers *)

Module SnippetForm.
Import FormState.

(** The form's own view of a snippet: key, language record and tags may be
    missing. *)
Record Snippet := {
  id_snippet : option Z;
  titulo : jsstring;
  descricao : option jsstring;
  codigo : jsstring;
  id_linguagem : Z;
  linguagens : option Language.t;
  snippet_tags : option (list SnippetTag)
}.

Record Props := {
  open : bool;
  onOpenChange : bool -> Task unit;
  snippet : option Snippet;
  onSave : Task unit
}.

Definition setLoading v := modifyForm (with_loading v).
Definition setLanguages v := modifyForm (with_languages v).
Definition setAllTags v := modifyForm (with_allTags v).
Definition setSelectedTags v := modifyForm (with_selectedTags v).
Definition setNewTag v := modifyForm (with_newTag v).
Definition setFormData v := modifyForm (with_formData v).

(** Runs a handler of the current render. *)
Definition onRender {A : Type} (h : FormState.t -> Task A) : Task A :=
  fun b w => h (form w) b w.

Definition loadLanguages_body : Task unit :=
  r <- await SelectLinguagens ;;
  match r with
  | Failure error => throw error
  | Success data => setLanguages data
  end.

Definition loadLanguages : Task unit :=
  tryCatch loadLanguages_body
    (fun error =>
       toast {| title := js "Erro ao carregar linguagens";
                description := message error;
                variant := destructive |}).

Definition loadTags_body : Task unit :=
  r <- await SelectTags ;;
  match r with
  | Failure error => throw error
  | Success data => setAllTags data
  end.

Definition loadTags : Task unit :=
  tryCatch loadTags_body
    (fun error =>
       toast {| title := js "Erro ao carregar tags";
                description := message error;
                variant := destructive |}).

(** The effect on [snippet]: the form is filled from the snippet being
    edited, or emptied. *)
Definition snippetEffect (p : Props) : Task unit :=
  match snippet p with
  | Some snippet =>
      setFormData
        (mkData (titulo snippet)
           (match descricao snippet with
            | Some d => if truthyString d then d else []
            | None => []
            end)
           (codigo snippet) (id_linguagem snippet)) ;;
      setSelectedTags
        (match snippet_tags snippet with
         | Some sts => List.map tags sts
         | None => []
         end)
  | None =>
      setFormData (mkData [] [] [] 0) ;;
      setSelectedTags []
  end.

Section WithCase.
Context `{UnicodeCase}.

(** Verifica se a tag ja existe *)
Definition existingTagOf (r : FormState.t) : option Tag :=
  List.find
    (fun tag => strictEqString (toLowerCase (nome tag)) (toLowerCase (newTag r)))
    (allTags r).

Definition addTag_body (r : FormState.t) : Task unit :=
  match existingTagOf r with
  | Some existingTag =>
      (if negb (bool_decide (is_Some
            (List.find (fun tag => id_tag tag =? id_tag existingTag) (selectedTags r))))
       then setSelectedTags (selectedTags r ++ [existingTag])
       else ret tt) ;;
      setNewTag []
  | None =>
      (* Cria nova tag *)
      resp <- await (InsertTag (trim (newTag r))) ;;
      match resp with
      | Failure error => throw error
      | Success data =>
          let newTagObj : Tag := data in
          setAllTags (allTags r ++ [newTagObj]) ;;
          setSelectedTags (selectedTags r ++ [newTagObj]) ;;
          setNewTag []
      end
  end.

Definition addTag_try (r : FormState.t) : Task unit :=
  tryCatch (addTag_body r)
    (fun error =>
       toast {| title := js "Erro ao criar tag";
                description := message error;
                variant := destructive |}).

Definition addTag (r : FormState.t) : Task unit :=
  if negb (truthyString (trim (newTag r))) then ret tt
  else addTag_try r.

End WithCase.

Definition removeTag (r : FormState.t) (tagId : Z) : Task unit :=
  setSelectedTags (List.filter (fun tag => negb (id_tag tag =? tagId)) (selectedTags r)).

(** [x || null] on a string. *)
Definition orNull (x : jsstring) : option jsstring :=
  if truthyString x then Some x else None.

Definition checkError {X : Type} (resp : PostgrestResponse X) : Task X :=
  match resp with
  | Failure error => throw error
  | Success data => ret data
  end.

(** The tag rows of a snippet: [{ id_snippet, id_tag }] for each tag. *)
Definition tagInserts (id : option Z) (selected : list Tag) : list (option Z * Z) :=
  List.map (fun tag => (id, id_tag tag)) selected.

Definition handleSubmit_body (p : Props) (user : User.t) (r : FormState.t) : Task unit :=
  let d := formData r in
  match snippet p with
  | Some snippet =>
      (* Atualizar snippet existente *)
      resp <- await (UpdateSnippet (id_snippet snippet) (FormState.titulo d)
                       (orNull (FormState.descricao d)) (FormState.codigo d)
                       (FormState.id_linguagem d)) ;;
      _ <- checkError resp ;;
      (* Atualizar tags *)
      _ <- await (DeleteSnippetTags (id_snippet snippet)) ;;
      (if (0 <? length (selectedTags r))%nat
       then
         resp <- await (InsertSnippetTags (tagInserts (id_snippet snippet) (selectedTags r))) ;;
         _ <- checkError resp ;;
         ret tt
       else ret tt) ;;
      toast {| title := js "Snippet atualizado!";
               description := js "As altera" ++ [231%N; 245%N] ++ js "es foram salvas com sucesso";
               variant := None |}
  | None =>
      (* Criar novo snippet *)
      resp <- await (InsertSnippet (FormState.titulo d) (orNull (FormState.descricao d))
                       (FormState.codigo d) (FormState.id_linguagem d)
                       (parseInt (User.id user))) ;;
      snippetData <- checkError resp ;;
      (* Adicionar tags *)
      (if (0 <? length (selectedTags r))%nat
       then
         resp <- await (InsertSnippetTags
                          (tagInserts (Some (inserted_id_snippet snippetData))
                             (selectedTags r))) ;;
         _ <- checkError resp ;;
         ret tt
       else ret tt) ;;
      toast {| title := js "Snippet criado!";
               description := js "Seu snippet foi salvo com sucesso";
               variant := None |}
  end ;;
  onSave p ;;
  onOpenChange p false.

Definition handleSubmit_try (p : Props) (user : User.t) (r : FormState.t) : Task unit :=
  tryFinally
    (tryCatch (handleSubmit_body p user r)
       (fun error =>
          toast {| title := js "Erro ao salvar";
                   description := message error;
                   variant := destructive |}))
    (setLoading false).

Definition handleSubmit (p : Props) (user : option User.t) (r : FormState.t) : Task unit :=
  (* e.preventDefault() acts on the event only *)
  match user with
  | None => ret tt
  | Some user =>
      let d := formData r in
      if negb (truthyString (trim (FormState.titulo d)))
         || negb (truthyString (trim (FormState.codigo d)))
         || negb (truthyNumber (FormState.id_linguagem d))
      then
        toast {| title := js "Campos obrigat" ++ [243%N] ++ js "rios";
                 description := js "Preencha t" ++ [237%N] ++ js "tulo, c" ++ [243%N]
                                ++ js "digo e linguagem";
                 variant := destructive |}
      else
        setLoading true ;;
        handleSubmit_try p user r
  end.

End SnippetForm.

(** The form as the dashboard mounts it. *)
Definition toFormSnippet (s : Snippet) : SnippetForm.Snippet :=
  {| SnippetForm.id_snippet := Some (id_snippet s);
     SnippetForm.titulo := titulo s;
     SnippetForm.descricao := descricao s;
     SnippetForm.codigo := codigo s;
     SnippetForm.id_linguagem := id_linguagem s;
     SnippetForm.linguagens := Some (linguagens s);
     SnippetForm.snippet_tags := Some (snippet_tags s) |}.

(** The callbacks the dashboard passes to the form it mounts. *)
Definition mountedProps (user : option User.t) (open : bool)
    (snippet : option SnippetForm.Snippet) : SnippetForm.Props :=
  {| SnippetForm.open := open;
     SnippetForm.onOpenChange := fun _ => Dashboard.handleFormClose;
     SnippetForm.snippet := snippet;
     SnippetForm.onSave := Dashboard.handleFormSave user |}.

Definition formProps (user : option User.t) (r : DashboardState.t) : SnippetForm.Props :=
  mountedProps user (DashboardState.showForm r)
    (option_map toFormSnippet (DashboardState.editingSnippet r)).

(** ** The fallible operations

    Every operation that talks to the database is a [try] block: the
    statements tried, and the block with its [catch] (and [finally]). *)

Inductive Operation :=
| LoadSnippets (user : option User.t)
| LoadLanguages
| LoadTags
| Delete (user : option User.t) (id : Z)
| FormLoadLanguages
| FormLoadTags
| InsertNewTag `{UnicodeCase} (r : FormState.t)
| Submit (owner : option User.t) (open : bool) (snippet : option SnippetForm.Snippet)
    (user : User.t) (r : FormState.t).

Definition tried (op : Operation) : Task unit :=
  match op with
  | LoadSnippets user => Dashboard.loadSnippets_body user
  | LoadLanguages => Dashboard.loadLanguages_body
  | LoadTags => Dashboard.loadTags_body
  | Delete user id => Dashboard.handleDelete_body user id
  | FormLoadLanguages => SnippetForm.loadLanguages_body
  | FormLoadTags => SnippetForm.loadTags_body
  | InsertNewTag r => SnippetForm.addTag_body r
  | Submit owner open snippet user r =>
      SnippetForm.handleSubmit_body (mountedProps owner open snippet) user r
  end.

Definition block (op : Operation) : Task unit :=
  match op with
  | LoadSnippets user => Dashboard.loadSnippets user
  | LoadLanguages => Dashboard.loadLanguages
  | LoadTags => Dashboard.loadTags
  | Delete user id => Dashboard.handleDelete user id
  | FormLoadLanguages => SnippetForm.loadLanguages
  | FormLoadTags => SnippetForm.loadTags
  | InsertNewTag r => SnippetForm.addTag_try r
  | Submit owner open snippet user r =>
      SnippetForm.handleSubmit_try (mountedProps owner open snippet) user r
  end.

(** The title of the notification the [catch] clause shows. *)
Definition errorTitle (op : Operation) : jsstring :=
  match op with
  | LoadSnippets _ => js "Erro ao carregar snippets"
  | LoadLanguages | FormLoadLanguages => js "Erro ao carregar linguagens"
  | LoadTags | FormLoadTags => js "Erro ao carregar tags"
  | Delete _ _ => js "Erro ao excluir"
  | InsertNewTag _ => js "Erro ao criar tag"
  | Submit _ _ _ _ _ => js "Erro ao salvar"
  end.

(** What the [finally] clause, where there is one, does to the form. *)
Definition settled (op : Operation) (f : FormState.t) : FormState.t :=
  match op with
  | Submit _ _ _ _ _ => FormState.with_loading false f
  | _ => f
  end.

(** ** Notions the specification speaks of *)

(** [q] occurs in [s] as a contiguous run of code units. *)
Definition Substring (q s : jsstring) : Prop :=
  exists pre suf, s = pre ++ q ++ suf.

(** [r] is [l] with exactly the elements satisfying [P] kept, each as often
    as it occurs and in the order of [l]. *)
Inductive KeepsExactly {A : Type} (P : A -> Prop) : list A -> list A -> Prop :=
| keeps_nil : KeepsExactly P [] []
| keeps_keep x l r : P x -> KeepsExactly P l r -> KeepsExactly P (x :: l) (x :: r)
| keeps_drop x l r : ~ P x -> KeepsExactly P l r -> KeepsExactly P (x :: l) r.

Section Notions.
Context `{UnicodeCase}.

(** [s] contains [q] as a case-insensitive substring. *)
Definition ContainsCI (s q : jsstring) : Prop :=
  Substring (toLowerCase q) (toLowerCase s).

(** The title, or the description when there is one, or the code contains
    the query. *)
Definition MatchesText (Q : jsstring) (s : Snippet) : Prop :=
  ContainsCI (titulo s) Q
  \/ (exists d, descricao s = Some d /\ ContainsCI d Q)
  \/ ContainsCI (codigo s) Q.

(** Two names are the same up to case. *)
Definition SameNameCI (a b : jsstring) : Prop := toLowerCase a = toLowerCase b.

End Notions.

(** The snippet carries a tag with this identifier. *)
Definition HasTag (s : Snippet) (id : Z) : Prop :=
  exists st, st ∈ snippet_tags s /\ id_tag (tags st) = id.

(** The snippet's tags include every tag of [T], by identifier. *)
Definition TagSuperset (T : list Tag) (s : Snippet) : Prop :=
  forall t, t ∈ T -> HasTag s (id_tag t).

(** How often a tag, by identifier, is in a selection. *)
Definition occurrences (id : Z) (selection : list Tag) : nat :=
  length (List.filter (fun t => id_tag t =? id) selection).

(** The loaded collections of both components. *)
Definition collections (w : Store) :=
  (DashboardState.snippets (dashboard w), DashboardState.languages (dashboard w),
   DashboardState.allTags (dashboard w),
   FormState.languages (form w), FormState.allTags (form w)).

(** ** Auxiliary definitions of the proofs *)

Definition isDecDigit (c : char16) : bool := ((48 <=? c) && (c <=? 57))%N.

(** The number a string of decimal digits denotes, continuing from [a]. *)
Definition decimalValue (s : jsstring) (a : N) : N :=
  fold_left (fun a c => (a * 10 + (c - 48))%N) s a.

Section Predicates.
Context `{UnicodeCase}.

(** Each step of [applyFilters] as one predicate, constantly true when the
    step is inactive. *)
Definition textKeeps (searchTerm : jsstring) (snippet : Snippet) : bool :=
  if truthyString searchTerm then ToBoolean (textCallback searchTerm snippet) else true.

Definition languageKeeps (selectedLanguage : jsstring) (snippet : Snippet) : bool :=
  if truthyString selectedLanguage && negb (strictEqString selectedLanguage (js "all"))
  then strictEqNumber (id_linguagem snippet) (parseInt selectedLanguage)
  else true.

Definition tagKeeps (selectedTags : list Tag) (snippet : Snippet) : bool :=
  if (0 <? length selectedTags)%nat
  then forallb
         (fun selectedTag =>
            existsb (fun st => id_tag (tags st) =? id_tag selectedTag)
              (snippet_tags snippet))
         selectedTags
  else true.

End Predicates.

(** ** Concrete data for the examples *)

Definition ex_util : Tag := {| id_tag := 7; nome := js "util" |}.

Definition ex_sort : Snippet :=
  {| id_snippet := 1; titulo := js "Sort"; descricao := None; codigo := js "xs.sort()";
     criado_em := js "2024-01-02"; id_linguagem := 1;
     linguagens := Language.mk 1 (js "Python"); snippet_tags := [] |}.

Definition ex_map : Snippet :=
  {| id_snippet := 2; titulo := js "Map"; descricao := Some (js "a lookup table");
     codigo := js "m := map[string]int{}";
     criado_em := js "2024-01-01"; id_linguagem := 2;
     linguagens := Language.mk 2 (js "Go"); snippet_tags := [ {| tags := ex_util |} ] |}.

Definition ex_python : Tag := {| id_tag := 1; nome := js "python" |}.

Definition ex_offline : JSError := {| message := js "Failed to fetch" |}.

(** A database that stores every new tag under key 2 and rejects every
    other request. *)
Definition ex_backend : Backend :=
  fun _ r =>
    match r return Settled (PostgrestResponse (Reply r)) with
    | InsertTag nm => Fulfilled (Success {| id_tag := 2; nome := nm |})
    | _ => Rejected ex_offline
    end.

(** A database that answers every request with an error. *)
Definition ex_failing : Backend :=
  fun _ r => Fulfilled (Failure ex_offline).

(** A form whose tag list holds [python], with the given text in the tag
    input. *)
Definition ex_store (typed : jsstring) : Store :=
  mkStore DashboardState.initial
    (FormState.mk false [] [ex_python] [] typed (FormState.mkData [] [] [] 0)) [] [].

(** ** What the components render from their state *)

Module JS.

(** [s.split(sep)] for a separator of one code unit: the pieces between the
    occurrences of [sep]; there is always at least one piece. *)
Fixpoint split (sep : char16) (s : jsstring) : list jsstring :=
  match s with
  | [] => [[]]
  | c :: r =>
      if (c =? sep)%N then [] :: split sep r
      else
        match split sep r with
        | piece :: pieces => (c :: piece) :: pieces
        | [] => [[c]]
        end
  end.

(** [pieces.join(sep)] *)
Fixpoint join (sep : jsstring) (pieces : list jsstring) : jsstring :=
  match pieces with
  | [] => []
  | piece :: rest =>
      match rest with
      | [] => piece
      | _ :: _ => piece ++ sep ++ join sep rest
      end
  end.

End JS.

Module SnippetCard.

(** The code the card shows: all of it when expanded, else its first six
    lines, followed by a line of three dots when there are more. *)
Definition codePreview (isCodeExpanded : bool) (snippet : Snippet) : jsstring :=
  if isCodeExpanded
  then codigo snippet
  else
    JS.join [10%N] (firstn 6 (JS.split 10%N (codigo snippet)))
    ++ (if (6 <? length (JS.split 10%N (codigo snippet)))%nat
        then 10%N :: js "..."
        else []).

(** Whether the button that expands and collapses the code is rendered. *)
Definition showToggle (snippet : Snippet) : bool :=
  (6 <? length (JS.split 10%N (codigo snippet)))%nat.

End SnippetCard.

Module DashboardView.
Import DashboardState.

(** Whether the button that clears the filters is rendered. *)
Definition showClear (r : DashboardState.t) : bool :=
  truthyString (searchTerm r)
  || negb (strictEqString (selectedLanguage r) (js "all"))
  || (0 <? length (selectedTags r))%nat.


End DashboardView.

Module FormView.
Import FormState.

Section WithCase.
Context `{UnicodeCase}.

(** The language handed to the highlighter of the form's preview. *)
Definition previewLanguage (r : FormState.t) : jsstring :=
  match List.find (fun l => Language.id_linguagem l =? id_linguagem (formData r))
          (languages r) with
  | Some l =>
      let name := toLowerCase (Language.nome l) in
      if truthyString name then name else js "javascript"
  | None => js "javascript"
  end.

End WithCase.

End FormView.

(** The identifiers of a list of tags. *)
Definition tagIds (T : list Tag) : list Z := List.map id_tag T.

(** How often a code unit occurs in a string. *)
Definition countUnit (c : char16) (s : jsstring) : nat :=
  length (List.filter (fun d => (d =? c)%N) s).

(** More concrete data. *)
Definition ex_code_long : jsstring :=
  js "a" ++ [10%N] ++ js "b" ++ [10%N] ++ js "c" ++ [10%N] ++ js "d" ++ [10%N]
  ++ js "e" ++ [10%N] ++ js "f" ++ [10%N] ++ js "g".

Definition ex_long : Snippet :=
  {| id_snippet := 3; titulo := js "Letters"; descricao := None; codigo := ex_code_long;
     criado_em := js "2024-01-03"; id_linguagem := 1;
     linguagens := Language.mk 1 (js "Python"); snippet_tags := [] |}.

(** A database that answers every request with success; the rows it
    returns are empty lists, a tag under key 2, a snippet under key 9. *)
Definition ex_accepting : Backend :=
  fun _ r =>
    Fulfilled
      (Success
         (match r return Reply r with
          | SelectSnippets _ => []
          | SelectLinguagens => []
          | SelectTags => []
          | InsertTag nm => {| id_tag := 2; nome := nm |}
          | InsertSnippet _ _ _ _ _ => {| inserted_id_snippet := 9 |}
          | DeleteSnippetTags _ | DeleteSnippet _ | UpdateSnippet _ _ _ _ _
          | InsertSnippetTags _ => tt
          end)).

Definition ex_user : User.t := User.mk (js "42").

(** ** Notifications and requests the handlers build *)

Definition toastDeleted : Toast :=
  {| title := js "Snippet exclu" ++ [237%N] ++ js "do";
     description := js "O snippet foi removido com sucesso";
     variant := None |}.

Definition toastRequired : Toast :=
  {| title := js "Campos obrigat" ++ [243%N] ++ js "rios";
     description := js "Preencha t" ++ [237%N] ++ js "tulo, c" ++ [243%N]
                    ++ js "digo e linguagem";
     variant := destructive |}.

Definition toastCreated : Toast :=
  {| title := js "Snippet criado!";
     description := js "Seu snippet foi salvo com sucesso";
     variant := None |}.

(** The request that creates the snippet of a form. *)
Definition insertOf (user : User.t) (r : FormState.t) : Request :=
  let d := FormState.formData r in
  InsertSnippet (FormState.titulo d) (SnippetForm.orNull (FormState.descricao d))
    (FormState.codigo d) (FormState.id_linguagem d) (parseInt (User.id user)).

(** The request that links the selected tags to the snippet with key [id]. *)
Definition linksOf (id : option Z) (r : FormState.t) : Request :=
  InsertSnippetTags (List.map (fun tag => (id, id_tag tag)) (FormState.selectedTags r)).

Definition toastSaveError (e : JSError) : Toast :=
  {| title := js "Erro ao salvar"; description := message e; variant := destructive |}.

(** The request that updates the snippet being edited from a form. *)
Definition updateOf (sn : SnippetForm.Snippet) (r : FormState.t) : Request :=
  let d := FormState.formData r in
  UpdateSnippet (SnippetForm.id_snippet sn) (FormState.titulo d)
    (SnippetForm.orNull (FormState.descricao d)) (FormState.codigo d)
    (FormState.id_linguagem d).

(** A form filled in with a title, a code and a language, and one tag
    selected. *)
Definition ex_filled : FormState.t :=
  FormState.mk false [] [ex_python] [ex_python] []
    (FormState.mkData (js "Sort") [] (js "xs.sort()") 1).

Definition ex_filled_store : Store :=
  mkStore DashboardState.initial ex_filled [] [].

(** A database that stores snippets but answers the insertion of tag links
    with an error. *)
Definition ex_links_failing : Backend :=
  fun n r =>
    match r return Settled (PostgrestResponse (Reply r)) with
    | InsertSnippetTags _ => Fulfilled (Failure ex_offline)
    | other => ex_accepting n other
    end.

(** The snippet [ex_map] as the form sees it. *)
Definition ex_editing : SnippetForm.Snippet := toFormSnippet ex_map.

(** The error of reading [id] of no user. *)
Definition ex_type_error : JSError :=
  {| message := js "Cannot read properties of null (reading '" ++ js "id" ++ js "')" |}.

(** ** Further notifications, requests and data *)

Definition toastUpdated : Toast :=
  {| title := js "Snippet atualizado!";
     description := js "As altera" ++ [231%N; 245%N] ++ js "es foram salvas com sucesso";
     variant := None |}.

(** The request [loadSnippets] sends: none when there is no user to read the
    key of. *)
Definition reloadOf (user : option User.t) : list Request :=
  match user with
  | Some u => [SelectSnippets (parseInt (User.id u))]
  | None => []
  end.

(** A database that cannot delete tag links: it answers that request with
    an error, accepts every other, and lists [ex_map] as the only snippet. *)
Definition ex_links_undeletable : Backend :=
  fun n r =>
    match r return Settled (PostgrestResponse (Reply r)) with
    | DeleteSnippetTags _ => Fulfilled (Failure ex_offline)
    | SelectSnippets _ => Fulfilled (Success [ex_map])
    | other => ex_accepting n other
    end.

(** A dashboard that has loaded [ex_sort] and [ex_map], with the filled
    form. *)
Definition ex_loaded_store : Store :=
  mkStore (DashboardState.with_snippets [ex_sort; ex_map] DashboardState.initial)
    ex_filled [] [].

(** * Properties *)

(** ** Strings *)

Lemma startsWith_prefix (s q : jsstring) :
  startsWith s q = true <-> exists suf, s = q ++ suf.
Proof.
  revert s. induction q as [|d q IH]; intros s.
  - destruct s; simpl; split; eauto.
  - destruct s as [|c s]; simpl.
    + split; [discriminate | intros [suf E]; discriminate].
    + rewrite andb_true_iff, N.eqb_eq, IH. split.
      * intros [-> [suf ->]]. eauto.
      * intros [suf E]. injection E as -> ->. eauto.
Qed.

Lemma includes_substring (s q : jsstring) :
  includes s q = true <-> Substring q s.
Proof.
  unfold Substring. induction s as [|c s IH].
  - cbn [includes]. rewrite orb_false_r, startsWith_prefix. split.
    + intros [suf E]. exists [], suf. exact E.
    + intros (pre & suf & E). destruct pre; [eauto|discriminate].
  - cbn [includes]. rewrite orb_true_iff, startsWith_prefix, IH. split.
    + intros [[suf E] | (pre & suf & E)].
      * exists [], suf. exact E.
      * exists (c :: pre), suf. simpl. congruence.
    + intros (pre & suf & E). destruct pre as [|p pre].
      * left. eauto.
      * right. injection E as -> E. eauto.
Qed.

Lemma truthyString_nonempty (s : jsstring) : truthyString s = true <-> s <> [].
Proof. destruct s; simpl; split; congruence. Qed.

(** ** Lists *)

Lemma KeepsExactly_filter {A : Type} (P : A -> Prop) (f : A -> bool) (l : list A) :
  (forall x, x ∈ l -> (f x = true <-> P x)) -> KeepsExactly P l (List.filter f l).
Proof.
  induction l as [|x l IH]; intros Hf; simpl; [constructor|].
  assert (Hl : forall y, y ∈ l -> (f y = true <-> P y)).
  { intros y Hy. apply Hf. right. exact Hy. }
  destruct (f x) eqn:E.
  - apply keeps_keep; [apply Hf; [left|exact E] | auto].
  - apply keeps_drop; [|auto]. intros HP. apply Hf in HP; [congruence|left].
Qed.

Lemma KeepsExactly_all {A : Type} (P : A -> Prop) (l : list A) :
  (forall x, x ∈ l -> P x) -> KeepsExactly P l l.
Proof.
  induction l as [|x l IH]; intros HP; constructor.
  - apply HP. left.
  - apply IH. intros y Hy. apply HP. right. exact Hy.
Qed.

Lemma KeepsExactly_elem_of {A : Type} (P : A -> Prop) (l r : list A) :
  KeepsExactly P l r -> forall x, x ∈ r <-> x ∈ l /\ P x.
Proof.
  induction 1 as [|x l r HP _ IH|x l r HP _ IH]; intros y.
  - split; [intros Hy; inversion Hy | intros [Hy _]; inversion Hy].
  - rewrite !elem_of_cons, IH. split; [|tauto].
    intros [->|[? ?]]; auto.
  - rewrite elem_of_cons, IH. split; [tauto|].
    intros [[->|?] ?]; [contradiction|auto].
Qed.

Lemma KeepsExactly_sublist {A : Type} (P : A -> Prop) (l r : list A) :
  KeepsExactly P l r -> sublist r l.
Proof. induction 1; [constructor | by constructor | by constructor]. Qed.

Lemma KeepsExactly_unique {A : Type} (P : A -> Prop) (l r r' : list A) :
  KeepsExactly P l r -> KeepsExactly P l r' -> r = r'.
Proof.
  intros Hr. revert r'. induction Hr; intros r' Hr'; inversion Hr'; subst;
    try reflexivity; try contradiction; auto using f_equal.
Qed.

Lemma filter_sublist {A : Type} (f : A -> bool) (l : list A) :
  sublist (List.filter f l) l.
Proof.
  induction l as [|x l IH]; simpl; [constructor|].
  destruct (f x); by constructor.
Qed.

Lemma elem_of_List_filter {A : Type} (f : A -> bool) (l : list A) (x : A) :
  x ∈ List.filter f l <-> x ∈ l /\ f x = true.
Proof. rewrite !list_elem_of_In, filter_In. reflexivity. Qed.

Lemma List_filter_filter {A : Type} (f g : A -> bool) (l : list A) :
  List.filter g (List.filter f l) = List.filter (fun x => f x && g x) l.
Proof.
  induction l as [|x l IH]; simpl; [reflexivity|].
  destruct (f x); simpl; [destruct (g x)|]; by rewrite IH.
Qed.

Lemma List_filter_true {A : Type} (l : list A) : List.filter (fun _ => true) l = l.
Proof. induction l as [|x l IH]; simpl; congruence. Qed.

(** Intersecting a part of [S] with a filtering of [S] filters that part. *)
Lemma list_intersection_filter `{EqDecision A} (f : A -> bool) (l S : list A) :
  (forall x, x ∈ l -> x ∈ S) ->
  list_intersection l (List.filter f S) = List.filter f l.
Proof.
  induction l as [|x l IH]; intros Hsub; [reflexivity|].
  assert (Hl : forall y, y ∈ l -> y ∈ S) by (intros y Hy; apply Hsub; by right).
  simpl. rewrite (IH Hl).
  destruct (decide_rel elem_of x (List.filter f S)) as [Hin|Hout].
  - apply elem_of_List_filter in Hin. destruct Hin as [_ E]. by rewrite E.
  - destruct (f x) eqn:E; [|reflexivity].
    exfalso. apply Hout, elem_of_List_filter. split; [apply Hsub; left|exact E].
Qed.

(** ** Numbers *)

Lemma digitsOf_acc fuel : forall n acc, digitsOf fuel n acc = digitsOf fuel n [] ++ acc.
Proof.
  induction fuel as [|fuel IH]; intros n acc; simpl; [reflexivity|].
  destruct (n / 10 =? 0)%N; [reflexivity|].
  rewrite IH, (IH _ [_]), <- app_assoc. reflexivity.
Qed.

Lemma digitsOf_digits fuel : forall n, Forall (fun c => isDecDigit c = true) (digitsOf fuel n []).
Proof.
  induction fuel as [|fuel IH]; intros n; simpl; [constructor|].
  assert (Hd : isDecDigit (48 + n mod 10)%N = true).
  { unfold isDecDigit. assert (n mod 10 < 10)%N by (apply N.mod_lt; lia). 
    generalize dependent (n mod 10)%N. intros d Hd.
    apply andb_true_iff; split; apply N.leb_le; lia. }
  destruct (n / 10 =? 0)%N.
  - constructor; [exact Hd | constructor].
  - rewrite digitsOf_acc. apply Forall_app; split; [apply IH|].
    constructor; [exact Hd | constructor].
Qed.

Lemma digitsOf_nonempty fuel n : digitsOf (S fuel) n [] <> [].
Proof.
  simpl. destruct (n / 10 =? 0)%N; [discriminate|].
  rewrite digitsOf_acc. intros E. apply app_eq_nil in E. destruct E; discriminate.
Qed.

Lemma div_mod_10 (n : N) : exists q d : N, (n / 10 = q /\ n mod 10 = d /\ n = 10 * q + d /\ d < 10)%N.
Proof.
  exists (n / 10)%N, (n mod 10)%N. repeat split.
  - apply N.div_mod. discriminate.
  - apply N.mod_lt. discriminate.
Qed.

Lemma decimalValue_digitsOf fuel : forall n, (n < 2 ^ N.of_nat fuel)%N ->
  decimalValue (digitsOf fuel n []) 0 = n.
Proof.
  induction fuel as [|fuel IH]; intros n Hn.
  - simpl in *. change (2 ^ 0)%N with 1%N in Hn. lia.
  - simpl. destruct (div_mod_10 n) as (q & d & Hq & Hd & Hn' & Hlt).
    rewrite Hq, Hd. destruct (N.eqb_spec q 0) as [E|E].
    + simpl. lia.
    + rewrite digitsOf_acc. unfold decimalValue. rewrite fold_left_app. simpl.
      fold (decimalValue (digitsOf fuel q []) 0). rewrite IH; [lia|].
      rewrite Nat2N.inj_succ, N.pow_succ_r' in Hn. lia.
Qed.

Lemma radixDigit_dec c : isDecDigit c = true -> radixDigit 10 c = Some (c - 48)%N.
Proof.
  unfold isDecDigit, radixDigit, digitValue. intros Hc. rewrite Hc.
  apply andb_true_iff in Hc. destruct Hc as [H1 H2].
  apply N.leb_le in H1, H2.
  destruct (N.ltb_spec (c - 48)%N 10%N); [reflexivity | lia].
Qed.

Lemma parseDigits_dec s : forall a, Forall (fun c => isDecDigit c = true) s ->
  parseDigits 10 s (Some a) = Some (decimalValue s a).
Proof.
  induction s as [|c r IH]; intros a Hs; simpl; [reflexivity|].
  inversion Hs; subst. rewrite radixDigit_dec by assumption. apply IH. assumption.
Qed.

Lemma parseDigits_dec_start s : s <> [] -> Forall (fun c => isDecDigit c = true) s ->
  parseDigits 10 s None = Some (decimalValue s 0).
Proof.
  destruct s as [|c r]; [congruence|]. intros _ Hs. inversion Hs; subst. simpl.
  rewrite radixDigit_dec by assumption. rewrite parseDigits_dec by assumption. reflexivity.
Qed.

Lemma isDecDigit_range c : isDecDigit c = true -> (48 <= c <= 57)%N.
Proof.
  unfold isDecDigit. intros Hc. apply andb_true_iff in Hc. destruct Hc as [H1 H2].
  apply N.leb_le in H1, H2. lia.
Qed.

Lemma isDecDigit_plain c : isDecDigit c = true ->
  isWhiteSpace c = false /\ (c =? 45)%N = false /\ (c =? 43)%N = false
  /\ (c =? 120)%N = false /\ (c =? 88)%N = false.
Proof.
  intros Hc. apply isDecDigit_range in Hc. unfold isWhiteSpace.
  repeat match goal with
  | |- context [(?a =? ?b)%N] => destruct (N.eqb_spec a b); [lia|]
  | |- context [(?a <=? ?b)%N] => destruct (N.leb_spec a b)
  end; simpl; try lia; repeat split; reflexivity.
Qed.

(** After an optional sign has been taken off, a string of decimal digits is read in radix 10. *)
Lemma parseInt_unsigned s : s <> [] -> Forall (fun c => isDecDigit c = true) s ->
  parseInt s = Some (Z.of_N (decimalValue s 0)).
Proof.
  intros Hne Hs. unfold parseInt.
  destruct s as [|c r]; [congruence|].
  pose proof Hs as Hs'. inversion Hs' as [|? ? Hc Hr]; subst.
  destruct (isDecDigit_plain c Hc) as (Hw & Hm & Hp & _).
  simpl trimStart. rewrite Hw, Hm, Hp.
  destruct r as [|x r'].
  - rewrite parseDigits_dec_start by assumption. f_equal; lia.
  - inversion Hr as [|? ? Hx Hr']; subst.
    destruct (isDecDigit_plain x Hx) as (_ & _ & _ & Hx1 & Hx2).
    rewrite Hx1, Hx2, andb_false_r.
    rewrite parseDigits_dec_start by assumption. f_equal; lia.
Qed.

Lemma parseInt_negative s : s <> [] -> Forall (fun c => isDecDigit c = true) s ->
  parseInt (45%N :: s) = Some (- Z.of_N (decimalValue s 0)).
Proof.
  intros Hne Hs. unfold parseInt. simpl trimStart.
  change (isWhiteSpace 45%N) with false. cbv iota. change (45 =? 45)%N with true. cbv iota.
  destruct s as [|c r]; [congruence|].
  destruct r as [|x r'].
  - rewrite parseDigits_dec_start by assumption. f_equal; lia.
  - inversion Hs as [|? ? Hc Hr]; subst. inversion Hr as [|? ? Hx Hr']; subst.
    destruct (isDecDigit_plain x Hx) as (_ & _ & _ & Hx1 & Hx2).
    rewrite Hx1, Hx2, andb_false_r.
    rewrite parseDigits_dec_start by assumption. f_equal; lia.
Qed.

Lemma lt_pow2_succ_log2 (m : N) : (m < 2 ^ N.succ (N.log2 m))%N.
Proof.
  destruct m as [|p]; [reflexivity|]. apply N.log2_spec. reflexivity.
Qed.

Lemma parseInt_toString n : parseInt (Number_toString n) = Some n.
Proof.
  unfold Number_toString.
  generalize (eq_refl (Z.to_N (Z.abs n))).
  generalize (Z.to_N (Z.abs n)) at 1 3 4. intros m Hm.
  assert (Hv : decimalValue (digitsOf (S (N.to_nat (N.log2 m))) m []) 0 = m).
  { apply decimalValue_digitsOf. rewrite Nat2N.inj_succ, N2Nat.id.
    apply lt_pow2_succ_log2. }
  destruct (Z.ltb_spec n 0).
  - cbn [app]. rewrite parseInt_negative; [|apply digitsOf_nonempty|apply digitsOf_digits].
    rewrite Hv. f_equal; lia.
  - cbn [app]. rewrite parseInt_unsigned; [|apply digitsOf_nonempty|apply digitsOf_digits].
    rewrite Hv. f_equal; lia.
Qed.

Lemma Number_toString_head n :
  exists c r, Number_toString n = c :: r /\ (c = 45%N \/ isDecDigit c = true).
Proof.
  unfold Number_toString. destruct (n <? 0).
  - eexists _, _. split; [reflexivity | by left].
  - cbn [app].
    pose proof (digitsOf_nonempty (N.to_nat (N.log2 (Z.to_N (Z.abs n)))) (Z.to_N (Z.abs n))) as Hne.
    pose proof (digitsOf_digits (S (N.to_nat (N.log2 (Z.to_N (Z.abs n))))) (Z.to_N (Z.abs n))) as Hd.
    destruct (digitsOf _ _ []) as [|c r]; [congruence|].
    inversion Hd; subst. eexists _, _. split; [reflexivity | by right].
Qed.

Lemma Number_toString_nonempty n : Number_toString n <> [].
Proof. destruct (Number_toString_head n) as (c & r & -> & _). discriminate. Qed.

Lemma Number_toString_not_all n : Number_toString n <> js "all".
Proof.
  destruct (Number_toString_head n) as (c & r & -> & [->|Hc]); [discriminate|].
  intros E. injection E as -> _. discriminate.
Qed.

(** ** The filter *)

Section FilterProperties.
Context `{UnicodeCase}.

Lemma textFilter_as_filter Q l : textFilter Q l = List.filter (textKeeps Q) l.
Proof.
  unfold textFilter, textKeeps. destruct (truthyString Q); [reflexivity|].
  by rewrite List_filter_true.
Qed.

Lemma languageFilter_as_filter L l : languageFilter L l = List.filter (languageKeeps L) l.
Proof.
  unfold languageFilter, languageKeeps.
  destruct (truthyString L && negb (strictEqString L (js "all"))); [reflexivity|].
  by rewrite List_filter_true.
Qed.

Lemma tagFilter_as_filter T l : tagFilter T l = List.filter (tagKeeps T) l.
Proof.
  unfold tagFilter, tagKeeps. destruct (0 <? length T)%nat; [reflexivity|].
  by rewrite List_filter_true.
Qed.

Lemma applyFilters_as_filter S Q L T :
  applyFilters S Q L T
  = List.filter (fun s => textKeeps Q s && languageKeeps L s && tagKeeps T s) S.
Proof.
  unfold applyFilters.
  rewrite textFilter_as_filter, languageFilter_as_filter, tagFilter_as_filter.
  rewrite (List_filter_filter (textKeeps Q) (languageKeeps L)).
  by rewrite List_filter_filter.
Qed.

Lemma text_only S Q : applyFilters S Q (js "all") [] = textFilter Q S.
Proof. reflexivity. Qed.

Lemma language_only S L : applyFilters S [] L [] = languageFilter L S.
Proof. reflexivity. Qed.

Lemma tag_only S T : applyFilters S [] (js "all") T = tagFilter T S.
Proof. reflexivity. Qed.

Lemma textCallback_matches Q s :
  ToBoolean (textCallback Q s) = true <-> MatchesText Q s.
Proof.
  unfold textCallback, MatchesText, ContainsCI, jsOr, optChain.
  destruct (includes (toLowerCase (titulo s)) (toLowerCase Q)) eqn:Et; simpl.
  { split; [|reflexivity]. intros _. left. by apply includes_substring. }
  assert (Ht : ~ Substring (toLowerCase Q) (toLowerCase (titulo s))).
  { rewrite <- includes_substring. congruence. }
  destruct (descricao s) as [d|]; simpl.
  - destruct (includes (toLowerCase d) (toLowerCase Q)) eqn:Ed; simpl.
    + split; [|reflexivity]. intros _. right; left. exists d.
      split; [reflexivity | by apply includes_substring].
    + rewrite includes_substring. split; [auto|].
      intros [?|[(d' & E & Hd)|?]]; [contradiction| |assumption].
      injection E as <-. apply includes_substring in Hd. congruence.
  - rewrite includes_substring. split; [auto|].
    intros [?|[(d' & E & Hd)|?]]; [contradiction|discriminate|assumption].
Qed.

Lemma tagCallback_superset T s :
  forallb (fun selectedTag =>
             existsb (fun st => id_tag (tags st) =? id_tag selectedTag) (snippet_tags s)) T
  = true <-> TagSuperset T s.
Proof.
  unfold TagSuperset, HasTag. rewrite forallb_forall. split.
  - intros Hall t Ht. apply list_elem_of_In, Hall, existsb_exists in Ht.
    destruct Ht as (st & Hst & E). exists st. split; [by apply list_elem_of_In | lia].
  - intros Hall t Ht. apply list_elem_of_In, Hall in Ht. destruct Ht as (st & Hst & E).
    apply existsb_exists. exists st. split; [by apply list_elem_of_In | lia].
Qed.

(** C1. With a non-empty query the text filter keeps exactly the snippets
    whose title, description (when there is one) or code contains the query
    as a case-insensitive substring; the callback yields a boolean for a
    snippet without a description, decided by its title and code alone, so
    such a snippet is kept whenever its title or code matches. *)
Theorem text_filter_keeps_matching (S : list Snippet) (Q : jsstring) :
  Q <> [] ->
  KeepsExactly (MatchesText Q) S (textFilter Q S)
  /\ applyFilters S Q (js "all") [] = textFilter Q S
  /\ (forall s, s ∈ applyFilters S Q (js "all") [] -> MatchesText Q s)
  /\ (forall s, s ∈ S -> s ∉ applyFilters S Q (js "all") [] -> ~ MatchesText Q s)
  /\ (forall s, descricao s = None ->
        ToBoolean (textCallback Q s)
        = includes (toLowerCase (titulo s)) (toLowerCase Q)
          || includes (toLowerCase (codigo s)) (toLowerCase Q))
  /\ (forall s, s ∈ S -> descricao s = None ->
        ContainsCI (titulo s) Q \/ ContainsCI (codigo s) Q -> s ∈ textFilter Q S).
Proof.
  intros HQ. apply truthyString_nonempty in HQ.
  assert (Hk : KeepsExactly (MatchesText Q) S (textFilter Q S)).
  { unfold textFilter. rewrite HQ. apply KeepsExactly_filter.
    intros s _. apply textCallback_matches. }
  pose proof (KeepsExactly_elem_of _ _ _ Hk) as Hin.
  rewrite text_only. repeat split.
  - exact Hk.
  - intros s Hs. by apply Hin in Hs as [_ ?].
  - intros s Hs Hout Hm. apply Hout, Hin. by split.
  - intros s Hd. unfold textCallback, jsOr, optChain. rewrite Hd.
    by destruct (includes (toLowerCase (titulo s)) (toLowerCase Q)).
  - intros s Hs Hd Hm. apply Hin. split; [exact Hs|].
    destruct Hm; [by left | by right; right].
Qed.

(** C3. The tag filter keeps exactly the snippets that carry, by identifier,
    every selected tag. *)
Theorem tag_filter_keeps_supersets (S : list Snippet) (T : list Tag) :
  KeepsExactly (TagSuperset T) S (tagFilter T S)
  /\ applyFilters S [] (js "all") T = tagFilter T S
  /\ (forall s, s ∈ applyFilters S [] (js "all") T <->
        s ∈ S /\ forall t, t ∈ T -> exists st, st ∈ snippet_tags s /\ id_tag (tags st) = id_tag t).
Proof.
  assert (Hk : KeepsExactly (TagSuperset T) S (tagFilter T S)).
  { unfold tagFilter. destruct T as [|t T].
    - apply KeepsExactly_all. intros s _ t Ht. inversion Ht.
    - apply KeepsExactly_filter. intros s _. apply tagCallback_superset. }
  split; [exact Hk|]. split; [apply tag_only|].
  intros s. rewrite tag_only. apply (KeepsExactly_elem_of _ _ _ Hk).
Qed.

(** C4. Filtering by all three criteria gives the intersection of the three
    lists obtained by filtering by each criterion alone. *)
Theorem filters_conjunctive (S : list Snippet) (Q L : jsstring) (T : list Tag) :
  applyFilters S Q L T
  = list_intersection
      (list_intersection (applyFilters S Q (js "all") []) (applyFilters S [] L []))
      (applyFilters S [] (js "all") T).
Proof.
  rewrite text_only, language_only, tag_only. unfold applyFilters.
  rewrite textFilter_as_filter, !languageFilter_as_filter, !tagFilter_as_filter.
  rewrite (list_intersection_filter (languageKeeps L) _ S).
  - rewrite (list_intersection_filter (tagKeeps T) _ S); [reflexivity|].
    intros s Hs. apply elem_of_List_filter in Hs as [Hs _].
    by apply elem_of_List_filter in Hs as [Hs _].
  - intros s Hs. by apply elem_of_List_filter in Hs as [Hs _].
Qed.

(** C5. With no criterion active the filter returns the snippets as they
    are, in their order; no snippets give none. *)
Theorem no_criteria_identity (S : list Snippet) :
  applyFilters S [] (js "all") [] = S
  /\ applyFilters [] [] (js "all") [] = [].
Proof. split; reflexivity. Qed.

Lemma languageFilter_selected (S : list Snippet) (L : jsstring) :
  L <> [] -> L <> js "all" ->
  languageFilter L S
  = List.filter (fun s => strictEqNumber (id_linguagem s) (parseInt L)) S.
Proof.
  intros HL Hall. unfold languageFilter, strictEqString.
  apply truthyString_nonempty in HL. rewrite HL.
  by rewrite bool_decide_false.
Qed.

(** C6. For a language identifier [l], selected as the dashboard's select
    box does by its decimal text, the filter returns exactly the snippets
    whose language identifier is [l]: only those, and all of them. *)
Theorem language_filter_exact (S : list Snippet) (l : Z) :
  let R := applyFilters S [] (Number_toString l) [] in
  KeepsExactly (fun s => id_linguagem s = l) S R
  /\ (forall s, s ∈ R -> id_linguagem s = l)
  /\ (forall s, s ∈ S -> id_linguagem s = l -> s ∈ R).
Proof.
  intros R.
  assert (Hk : KeepsExactly (fun s => id_linguagem s = l) S R).
  { subst R. rewrite language_only.
    rewrite languageFilter_selected
      by (apply Number_toString_nonempty || apply Number_toString_not_all).
    rewrite parseInt_toString. apply KeepsExactly_filter.
    intros s _. simpl. apply Z.eqb_eq. }
  pose proof (KeepsExactly_elem_of _ _ _ Hk) as Hin.
  split; [exact Hk|]. split.
  - intros s Hs. by apply Hin in Hs as [_ ?].
  - intros s Hs Hl. by apply Hin.
Qed.

(** C7. Whatever the criteria, the result is a subsequence of the snippets:
    its elements are snippets of the input, in the input's order. *)
Theorem filter_subsequence (S : list Snippet) (Q L : jsstring) (T : list Tag) :
  sublist (applyFilters S Q L T) S
  /\ (forall s, s ∈ applyFilters S Q L T -> s ∈ S).
Proof.
  assert (Hsub : sublist (applyFilters S Q L T) S).
  { rewrite applyFilters_as_filter. apply filter_sublist. }
  split; [exact Hsub|]. intros s Hs. eapply elem_of_sublist; eauto.
Qed.

(** C10. An empty language selection behaves as the sentinel: the language
    step keeps every snippet, although the empty string is not the sentinel,
    is not a number for [parseInt], and is the text of no identifier. *)
Theorem empty_language_selection_is_all (S : list Snippet) (Q : jsstring) (T : list Tag) :
  languageFilter [] S = S
  /\ languageFilter [] S = languageFilter (js "all") S
  /\ applyFilters S Q [] T = applyFilters S Q (js "all") T
  /\ [] <> js "all"
  /\ parseInt [] = None
  /\ (forall n, Number_toString n <> []).
Proof.
  repeat split; try discriminate. apply Number_toString_nonempty.
Qed.

End FilterProperties.

(** ** Failing operations *)

(** Destructs the answers of the database and the completions that the
    goal or a hypothesis branches on. *)
Ltac step_task :=
  match goal with
  | |- context [match ?b ?n ?r with Rejected _ => _ | Fulfilled _ => _ end] =>
      destruct (b n r) as [?|[?|?]]
  | H : context [match ?b ?n ?r with Rejected _ => _ | Fulfilled _ => _ end] |- _ =>
      destruct (b n r) as [?|[?|?]]
  | |- context [match ?o with Some _ => _ | None => _ end] => destruct o
  | H : context [match ?o with Some _ => _ | None => _ end] |- _ => destruct o
  | |- context [if ?c then _ else _] => destruct c
  | H : context [if ?c then _ else _] |- _ => destruct c
  end.

Ltac run_task :=
  unfold throws, exec, tryCatch, tryFinally, bind, ret, throw, await, toast,
    modifyDashboard, modifyForm, nonNull in *;
  simpl in *.

Lemma loadSnippets_returns (user : option User.t) (b : Backend) (w : Store) :
  fst (Dashboard.loadSnippets user b w) = Normal tt
  /\ DashboardState.languages (dashboard (snd (Dashboard.loadSnippets user b w)))
     = DashboardState.languages (dashboard w)
  /\ DashboardState.allTags (dashboard (snd (Dashboard.loadSnippets user b w)))
     = DashboardState.allTags (dashboard w)
  /\ form (snd (Dashboard.loadSnippets user b w)) = form w.
Proof.
  unfold Dashboard.loadSnippets, Dashboard.loadSnippets_body, Dashboard.setSnippets.
  run_task. repeat (step_task; simpl); auto.
Qed.

Lemma tryCatch_caught {A : Type} (body : Task A) (handler : JSError -> Task A)
    (b : Backend) (w : Store) (e : JSError) :
  throws body b w e -> tryCatch body handler b w = handler e b (snd (body b w)).
Proof.
  unfold throws, tryCatch. destruct (body b w) as [[a|e'] w']; simpl; congruence.
Qed.

(** A failing attempt has only sent requests: no cell of either component
    was written and nothing was shown. *)
Lemma tried_throws_clean (op : Operation) (b : Backend) (w : Store) (e : JSError) :
  throws (tried op) b w e ->
  dashboard (snd (tried op b w)) = dashboard w
  /\ form (snd (tried op b w)) = form w
  /\ toasts (snd (tried op b w)) = toasts w.
Proof.
  intros Hthrow.
  destruct op; cbn [tried] in *.
  - unfold Dashboard.loadSnippets_body, Dashboard.setSnippets in *.
    run_task. repeat (step_task; simpl in * ); try discriminate; auto.
  - unfold Dashboard.loadLanguages_body, Dashboard.setLanguages in *.
    run_task. repeat (step_task; simpl in * ); try discriminate; auto.
  - unfold Dashboard.loadTags_body, Dashboard.setAllTags in *.
    run_task. repeat (step_task; simpl in * ); try discriminate; auto.
  - unfold Dashboard.handleDelete_body in *.
    unfold throws, bind, await, toast in *. simpl in *.
    repeat (step_task; simpl in * ); try discriminate; auto.
    all: match goal with
         | H : context [Dashboard.loadSnippets ?u ?b ?w] |- _ =>
             pose proof (loadSnippets_returns u b w) as (Hn & _);
             destruct (Dashboard.loadSnippets u b w) as [[?|?] ?]; simpl in *; discriminate
         end.
  - unfold SnippetForm.loadLanguages_body, SnippetForm.setLanguages in *.
    run_task. repeat (step_task; simpl in * ); try discriminate; auto.
  - unfold SnippetForm.loadTags_body, SnippetForm.setAllTags in *.
    run_task. repeat (step_task; simpl in * ); try discriminate; auto.
  - unfold SnippetForm.addTag_body, SnippetForm.setAllTags, SnippetForm.setSelectedTags,
      SnippetForm.setNewTag in *.
    run_task. repeat (step_task; simpl in * ); try discriminate; auto.
  - unfold SnippetForm.handleSubmit_body, mountedProps, SnippetForm.checkError,
      Dashboard.handleFormSave, Dashboard.handleFormClose, Dashboard.setShowForm,
      Dashboard.setEditingSnippet in *.
    unfold throws, bind, await, toast, ret, throw, modifyDashboard in *. simpl in *.
    repeat (step_task; simpl in * ); try discriminate; auto.
    all: match goal with
         | H : context [Dashboard.loadSnippets ?u ?b ?w] |- _ =>
             pose proof (loadSnippets_returns u b w) as (Hn & _);
             destruct (Dashboard.loadSnippets u b w) as [[?|?] ?]; simpl in *; discriminate
         end.
Qed.

(** The failures the code inspects. When the statements an operation tries
    end in an error, whether a request was rejected or a checked answer was
    an error, the block leaves the state of both components as it was (a
    submission only clears its [loading] flag), so the loaded snippets,
    languages and tags are unchanged; it shows one destructive notification
    carrying the error's message, and completes normally. *)
Theorem failure_leaves_state_unchanged (op : Operation) (b : Backend) (w : Store)
    (e : JSError) :
  throws (tried op) b w e ->
  let w' := exec (block op) b w in
  collections w' = collections w
  /\ dashboard w' = dashboard w
  /\ form w' = settled op (form w)
  /\ toasts w'
     = toasts w ++ [ {| title := errorTitle op; description := message e;
                        variant := destructive |} ]
  /\ fst (block op b w) = Normal tt.
Proof.
  intros Hthrow. cbv zeta.
  destruct (tried_throws_clean op b w e Hthrow) as (Hd & Hf & Ht).
  assert (Hmain :
    dashboard (exec (block op) b w) = dashboard w
    /\ form (exec (block op) b w) = settled op (form w)
    /\ toasts (exec (block op) b w)
       = toasts w ++ [ {| title := errorTitle op; description := message e;
                          variant := destructive |} ]
    /\ fst (block op b w) = Normal tt).
  { unfold exec.
    destruct op; cbn [tried block errorTitle settled] in *;
      unfold Dashboard.loadSnippets, Dashboard.loadLanguages, Dashboard.loadTags,
        Dashboard.handleDelete, SnippetForm.loadLanguages, SnippetForm.loadTags,
        SnippetForm.addTag_try, SnippetForm.handleSubmit_try, tryFinally;
      rewrite (tryCatch_caught _ _ b w e Hthrow);
      unfold toast, SnippetForm.setLoading, modifyForm; simpl;
      rewrite Hd, Hf, Ht; auto. }
  destruct Hmain as (Hd' & Hf' & Ht' & Hr).
  repeat split; try assumption.
  unfold collections. rewrite Hd', Hf'. by destruct op.
Qed.

(** C9, on a database that answers the deletion of tag links with an error
    and every other request with success. [handleDelete] does not look at
    that answer: the failed request is followed by the deletion of the
    snippet, the only notification is the notice of success, and the reload
    replaces the list in memory. [handleSubmit] does the same when it
    updates a snippet: the failed deletion of the links is followed by their
    insertion, the notice of success, the reload and the closing of the
    form. *)
Theorem unchecked_link_deletion_failure :
  let b := ex_links_undeletable in
  let w := ex_loaded_store in
  let deleted := exec (Dashboard.handleDelete (Some ex_user) 1) b w in
  let updated :=
    exec (SnippetForm.handleSubmit (mountedProps (Some ex_user) true (Some ex_editing))
            (Some ex_user) ex_filled) b w in
  b (length (sent w)) (DeleteSnippetTags (Some 1)) = Fulfilled (Failure ex_offline)
  /\ DashboardState.snippets (dashboard w) = [ex_sort; ex_map]
  /\ DashboardState.snippets (dashboard deleted) = [ex_map]
  /\ toasts deleted = [toastDeleted]
  /\ sent deleted
     = [DeleteSnippetTags (Some 1); DeleteSnippet 1; SelectSnippets (Some 42)]
  /\ b (S (length (sent w))) (DeleteSnippetTags (Some 2)) = Fulfilled (Failure ex_offline)
  /\ DashboardState.snippets (dashboard updated) = [ex_map]
  /\ toasts updated = [toastUpdated]
  /\ sent updated
     = [updateOf ex_editing ex_filled; DeleteSnippetTags (Some 2);
        linksOf (Some 2) ex_filled; SelectSnippets (Some 42)].
Proof. vm_compute. repeat split; reflexivity. Qed.

(** ** Adding a tag in the form *)

Lemma occurrences_app id l k : occurrences id (l ++ k) = (occurrences id l + occurrences id k)%nat.
Proof. unfold occurrences. by rewrite List.filter_app, length_app. Qed.

Lemma occurrences_absent id l :
  List.find (fun t => id_tag t =? id) l = None -> occurrences id l = 0%nat.
Proof.
  unfold occurrences. induction l as [|t l IH]; simpl; [reflexivity|].
  destruct (id_tag t =? id); [discriminate | exact IH].
Qed.

Lemma occurrences_present id l :
  NoDup (List.map id_tag l) ->
  is_Some (List.find (fun t => id_tag t =? id) l) -> occurrences id l = 1%nat.
Proof.
  unfold occurrences. induction l as [|t l IH]; simpl; intros Hnd Hfind.
  - by destruct Hfind.
  - apply NoDup_cons in Hnd as [Hnotin Hnd].
    destruct (Z.eqb_spec (id_tag t) id) as [E|E]; [|by apply IH].
    simpl. f_equal. apply (occurrences_absent id l).
    destruct (List.find (fun t => id_tag t =? id) l) as [u|] eqn:Hu; [|reflexivity].
    apply find_some in Hu as [Hin Hid]. apply Z.eqb_eq in Hid.
    exfalso. apply Hnotin. rewrite E, <- Hid. apply list_elem_of_In, in_map, Hin.
Qed.

Lemma find_app_absent {A : Type} (f : A -> bool) (l k : list A) :
  List.find f l = None -> List.find f (l ++ k) = List.find f k.
Proof.
  induction l as [|x l IH]; simpl; [reflexivity|].
  destruct (f x); [discriminate | exact IH].
Qed.

Section AddTag.
Context `{UnicodeCase}.

Lemma existingTagOf_found (r : FormState.t) :
  (exists t, t ∈ FormState.allTags r /\ SameNameCI (nome t) (FormState.newTag r)) ->
  exists t, SnippetForm.existingTagOf r = Some t
            /\ t ∈ FormState.allTags r /\ SameNameCI (nome t) (FormState.newTag r).
Proof.
  intros (t & Ht & Hname). unfold SnippetForm.existingTagOf.
  destruct (List.find _ (FormState.allTags r)) as [u|] eqn:Hu.
  - exists u. apply find_some in Hu as [Hin Hu]. split; [reflexivity|].
    split; [by apply list_elem_of_In|].
    unfold strictEqString in Hu. by apply bool_decide_eq_true in Hu.
  - exfalso. apply list_elem_of_In in Ht.
    pose proof (find_none _ _ Hu t Ht) as Hno. unfold strictEqString in Hno.
    apply bool_decide_eq_false in Hno. contradiction.
Qed.

(** What [addTag] does when the name typed is not blank and the lookup
    finds a tag: the tag joins the selection unless its identifier is there
    already, and the input is cleared; the snapshot [r] supplies the values
    read, the store [w] receives the writes. *)
Lemma addTag_hit (r : FormState.t) (t : Tag) (b : Backend) (w : Store) :
  trim (FormState.newTag r) <> [] ->
  SnippetForm.existingTagOf r = Some t ->
  SnippetForm.addTag r b w
  = (Normal tt,
     mkStore (dashboard w)
       (FormState.with_newTag []
          (if bool_decide (is_Some (List.find (fun tag => id_tag tag =? id_tag t)
                                      (FormState.selectedTags r)))
           then form w
           else FormState.with_selectedTags (FormState.selectedTags r ++ [t]) (form w)))
       (toasts w) (sent w)).
Proof.
  intros Hname Hfind. apply truthyString_nonempty in Hname.
  unfold SnippetForm.addTag, SnippetForm.addTag_try, SnippetForm.addTag_body.
  rewrite Hname, Hfind. simpl.
  unfold tryCatch, bind, ret, SnippetForm.setSelectedTags, SnippetForm.setNewTag, modifyForm.
  by destruct (bool_decide _).
Qed.

(** After a hit the tag is in the selection exactly once. *)
Lemma selection_after_hit (t : Tag) (sel : list Tag) :
  NoDup (List.map id_tag sel) ->
  let sel' := if bool_decide (is_Some (List.find (fun tag => id_tag tag =? id_tag t) sel))
              then sel else sel ++ [t] in
  occurrences (id_tag t) sel' = 1%nat
  /\ is_Some (List.find (fun tag => id_tag tag =? id_tag t) sel').
Proof.
  intros Hnd. cbv zeta. case_bool_decide as Hp.
  - split; [by apply occurrences_present | exact Hp].
  - assert (Hnone : List.find (fun tag => id_tag tag =? id_tag t) sel = None).
    { destruct (List.find _ sel) eqn:E; [|reflexivity]. exfalso. apply Hp. eauto. }
    split.
    + rewrite occurrences_app, (occurrences_absent _ _ Hnone).
      unfold occurrences. simpl. by rewrite Z.eqb_refl.
    + rewrite (find_app_absent _ _ _ Hnone). simpl. rewrite Z.eqb_refl. eauto.
Qed.

(** C8. Adding twice in succession a non-blank name that matches an existing
    tag up to case, to a selection without repeated tags: the list of all
    tags is as before, no request is sent, and the matching tag is in the
    selection exactly once. This holds when the name is typed again for the
    second invocation, and when both invocations come from the same render. *)
Theorem addTag_twice_selects_once (b : Backend) (w : Store) (name : jsstring) :
  trim name <> [] ->
  (exists t, t ∈ FormState.allTags (form w) /\ SameNameCI (nome t) name) ->
  NoDup (List.map id_tag (FormState.selectedTags (form w))) ->
  let typeAndAdd :=
    bind (SnippetForm.setNewTag name) (fun _ => SnippetForm.onRender SnippetForm.addTag) in
  let again := exec (bind typeAndAdd (fun _ => typeAndAdd)) b w in
  let same :=
    exec (bind (SnippetForm.setNewTag name)
            (fun _ => SnippetForm.onRender
                        (fun r => bind (SnippetForm.addTag r) (fun _ => SnippetForm.addTag r))))
      b w in
  exists t,
    t ∈ FormState.allTags (form w) /\ SameNameCI (nome t) name
    /\ FormState.allTags (form again) = FormState.allTags (form w)
    /\ sent again = sent w
    /\ occurrences (id_tag t) (FormState.selectedTags (form again)) = 1%nat
    /\ FormState.allTags (form same) = FormState.allTags (form w)
    /\ sent same = sent w
    /\ occurrences (id_tag t) (FormState.selectedTags (form same)) = 1%nat.
Proof.
  intros Hname Hex Hnd. cbv zeta.
  set (r := FormState.with_newTag name (form w)).
  destruct (existingTagOf_found r Hex) as (t & Hfind & Ht & Hsame).
  destruct (selection_after_hit t _ Hnd) as (Hone & Hthere).
  exists t. split; [exact Ht|]. split; [exact Hsame|].
  unfold exec, bind, SnippetForm.onRender, SnippetForm.setNewTag, modifyForm.
  cbn [fst snd form dashboard toasts sent]. fold r.
  rewrite !(addTag_hit r t) by assumption.
  cbn [fst snd form dashboard toasts sent].
  set (sel := FormState.selectedTags (form w)) in *.
  assert (Hsel : FormState.selectedTags r = sel) by reflexivity.
  rewrite Hsel.
  destruct (bool_decide (is_Some (List.find (fun tag => id_tag tag =? id_tag t) sel))) eqn:Hp.
  - (* already selected *)
    rewrite (addTag_hit _ t); [| exact Hname | exact Hfind].
    cbn [fst snd form dashboard toasts sent]. simpl FormState.selectedTags.
    fold sel. rewrite Hp. simpl. repeat split; assumption.
  - (* appended by the first invocation *)
    rewrite (addTag_hit _ t); [| exact Hname | exact Hfind].
    cbn [fst snd form dashboard toasts sent]. simpl FormState.selectedTags.
    rewrite (bool_decide_eq_true_2 _ Hthere). simpl. repeat split; assumption.
Qed.

End AddTag.

(** ** What [addTag] does, case by case *)

Section AddTagCases.
Context `{UnicodeCase}.

(** A blank name: nothing is read further, nothing is written or sent. *)
Lemma addTag_blank_noop (r : FormState.t) (b : Backend) (w : Store) :
  trim (FormState.newTag r) = [] -> SnippetForm.addTag r b w = (Normal tt, w).
Proof. intros Hblank. unfold SnippetForm.addTag. by rewrite Hblank. Qed.

(** The lookup compares the name as typed, white space included. *)
Lemma existingTagOf_none (r : FormState.t) :
  SnippetForm.existingTagOf r = None <->
  forall t, t ∈ FormState.allTags r -> ~ SameNameCI (nome t) (FormState.newTag r).
Proof.
  unfold SnippetForm.existingTagOf, SameNameCI. split.
  - intros Hnone t Ht. apply list_elem_of_In in Ht.
    pose proof (find_none _ _ Hnone t Ht) as Hno. unfold strictEqString in Hno.
    by apply bool_decide_eq_false in Hno.
  - intros Hall. destruct (List.find _ _) as [u|] eqn:Hu; [|reflexivity].
    apply find_some in Hu as [Hin Hu]. unfold strictEqString in Hu.
    apply bool_decide_eq_true in Hu. exfalso.
    apply (Hall u); [by apply list_elem_of_In | exact Hu].
Qed.

(** A miss, answered with the new row: the row is appended to the list of
    all tags and to the selection of the snapshot, and the input is
    cleared; the name sent is the trimmed one. *)
Lemma addTag_miss_created (r : FormState.t) (data : Tag) (b : Backend) (w : Store) :
  trim (FormState.newTag r) <> [] ->
  SnippetForm.existingTagOf r = None ->
  b (length (sent w)) (InsertTag (trim (FormState.newTag r))) = Fulfilled (Success data) ->
  SnippetForm.addTag r b w
  = (Normal tt,
     mkStore (dashboard w)
       (FormState.with_newTag []
          (FormState.with_selectedTags (FormState.selectedTags r ++ [data])
             (FormState.with_allTags (FormState.allTags r ++ [data]) (form w))))
       (toasts w) (sent w ++ [InsertTag (trim (FormState.newTag r))])).
Proof.
  intros Hname Hfind Hanswer. apply truthyString_nonempty in Hname.
  unfold SnippetForm.addTag, SnippetForm.addTag_try, SnippetForm.addTag_body.
  rewrite Hname, Hfind. simpl.
  unfold tryCatch, bind, await. rewrite Hanswer. reflexivity.
Qed.

End AddTagCases.

(** C2, on the input [" python "] with the tag [python] present. Trimmed, the
    name is that of the existing tag; the lookup, made on the untrimmed name,
    misses it: a request to insert [python] is sent, and the row that comes
    back is appended to the list of all tags next to the existing one and
    selected in its place. *)
Theorem addTag_padded_name_creates_duplicate :
  let typed := js " python " in
  let w' := exec (SnippetForm.onRender (@SnippetForm.addTag asciiCase)) ex_backend
              (ex_store typed) in
  trim typed = nome ex_python
  /\ @SameNameCI asciiCase (nome ex_python) (trim typed)
  /\ @SnippetForm.existingTagOf asciiCase (form (ex_store typed)) = None
  /\ sent w' = [InsertTag (js "python")]
  /\ FormState.allTags (form w') = [ex_python; {| id_tag := 2; nome := js "python" |}]
  /\ FormState.selectedTags (form w') = [ {| id_tag := 2; nome := js "python" |} ].
Proof. vm_compute. repeat split; reflexivity. Qed.

(** The same name without the padding is found, and selects the existing
    tag. *)
Example addTag_exact_name_reuses :
  let w' := exec (SnippetForm.onRender (@SnippetForm.addTag asciiCase)) ex_backend
              (ex_store (js "Python")) in
  sent w' = []
  /\ FormState.allTags (form w') = [ex_python]
  /\ FormState.selectedTags (form w') = [ex_python].
Proof. vm_compute. repeat split; reflexivity. Qed.

(** ** The scenario of the specification *)

Example scenario_query :
  @applyFilters asciiCase [ex_sort; ex_map] (js "sort") (js "all") [] = [ex_sort].
Proof. vm_compute. reflexivity. Qed.

Example scenario_language :
  @applyFilters asciiCase [ex_sort; ex_map] [] (Number_toString 2) [] = [ex_map].
Proof. vm_compute. reflexivity. Qed.

Example scenario_tags :
  @applyFilters asciiCase [ex_sort; ex_map] [] (js "all") [ex_util] = [ex_map].
Proof. vm_compute. reflexivity. Qed.

(** ** Instances of the conditional theorems *)

Lemma text_filter_keeps_matching_witness :
  js "sort" <> []
  /\ KeepsExactly (@MatchesText asciiCase (js "sort")) [ex_sort; ex_map]
       (@textFilter asciiCase (js "sort") [ex_sort; ex_map]).
Proof.
  assert (Hq : js "sort" <> []) by (vm_compute; discriminate).
  split; [exact Hq|].
  exact (proj1 (@text_filter_keeps_matching asciiCase [ex_sort; ex_map] (js "sort") Hq)).
Defined.

Lemma addTag_twice_selects_once_witness :
  trim (js "Python") <> []
  /\ (exists t, t ∈ FormState.allTags (form (ex_store [])) /\ @SameNameCI asciiCase (nome t) (js "Python"))
  /\ NoDup (List.map id_tag (FormState.selectedTags (form (ex_store []))))
  /\ exists t, t ∈ FormState.allTags (form (ex_store [])) /\ @SameNameCI asciiCase (nome t) (js "Python").
Proof.
  assert (Hname : trim (js "Python") <> []) by (vm_compute; discriminate).
  assert (Hex : exists t, t ∈ FormState.allTags (form (ex_store []))
                          /\ @SameNameCI asciiCase (nome t) (js "Python")).
  { exists ex_python. split; [vm_compute; left | vm_compute; reflexivity]. }
  assert (Hnd : NoDup (List.map id_tag (FormState.selectedTags (form (ex_store []))))).
  { vm_compute. constructor. }
  split; [exact Hname|]. split; [exact Hex|]. split; [exact Hnd|].
  destruct (@addTag_twice_selects_once asciiCase ex_backend (ex_store []) (js "Python")
              Hname Hex Hnd) as (t & Ht & Hsame & _).
  exists t. split; assumption.
Defined.

Lemma failure_leaves_state_unchanged_witness :
  throws (tried (Delete None 5)) ex_failing (ex_store []) ex_offline
  /\ collections (exec (block (Delete None 5)) ex_failing (ex_store []))
     = collections (ex_store []).
Proof.
  assert (Hthrow : throws (tried (Delete None 5)) ex_failing (ex_store []) ex_offline)
    by (vm_compute; reflexivity).
  split; [exact Hthrow|].
  exact (proj1 (failure_leaves_state_unchanged (Delete None 5) ex_failing (ex_store [])
                  ex_offline Hthrow)).
Defined.

(** * Further properties *)

(** ** Splitting into lines and joining *)

Lemma split_nonempty (sep : char16) (s : jsstring) : JS.split sep s <> [].
Proof.
  destruct s as [|c r]; simpl; [discriminate|].
  destruct (c =? sep)%N; [discriminate|].
  destruct (JS.split sep r); discriminate.
Qed.

Lemma join_cons (sep piece : jsstring) (rest : list jsstring) :
  rest <> [] -> JS.join sep (piece :: rest) = piece ++ sep ++ JS.join sep rest.
Proof. destruct rest; [congruence | reflexivity]. Qed.

Lemma join_split (sep : char16) (s : jsstring) : JS.join [sep] (JS.split sep s) = s.
Proof.
  induction s as [|c r IH]; [reflexivity|]. simpl.
  destruct (N.eqb_spec c sep) as [->|Hc].
  - rewrite join_cons by apply split_nonempty. simpl. by rewrite IH.
  - pose proof (split_nonempty sep r) as Hne.
    destruct (JS.split sep r) as [|piece pieces]; [congruence|].
    destruct pieces as [|q qs]; simpl in *; by rewrite <- IH.
Qed.

Lemma length_split (sep : char16) (s : jsstring) :
  length (JS.split sep s) = S (countUnit sep s).
Proof.
  unfold countUnit. induction s as [|c r IH]; [reflexivity|]. simpl.
  destruct (c =? sep)%N; simpl; [by rewrite IH|].
  pose proof (split_nonempty sep r) as Hne.
  destruct (JS.split sep r) as [|piece pieces]; [congruence|]. exact IH.
Qed.

Lemma split_pieces_clean (sep : char16) (s : jsstring) :
  Forall (fun piece => countUnit sep piece = 0%nat) (JS.split sep s).
Proof.
  unfold countUnit. induction s as [|c r IH]; simpl.
  - by constructor.
  - destruct (c =? sep)%N eqn:Ec; [by constructor|].
    destruct (JS.split sep r) as [|piece pieces]; [by repeat constructor; simpl; rewrite Ec|].
    inversion IH; subst. constructor; [|assumption]. simpl. by rewrite Ec.
Qed.

Lemma split_clean (sep : char16) (p : jsstring) :
  countUnit sep p = 0%nat -> JS.split sep p = [p].
Proof.
  unfold countUnit. induction p as [|c r IH]; simpl; [reflexivity|].
  destruct (c =? sep)%N; simpl; [discriminate|]. intros Hr. by rewrite IH.
Qed.

Lemma split_clean_sep (sep : char16) (p r : jsstring) :
  countUnit sep p = 0%nat -> JS.split sep (p ++ sep :: r) = p :: JS.split sep r.
Proof.
  unfold countUnit. induction p as [|c p IH]; simpl.
  - by rewrite N.eqb_refl.
  - destruct (c =? sep)%N; simpl; [discriminate|]. intros Hp. by rewrite IH.
Qed.

Lemma split_join (sep : char16) (pieces : list jsstring) :
  pieces <> [] ->
  Forall (fun piece => countUnit sep piece = 0%nat) pieces ->
  JS.split sep (JS.join [sep] pieces) = pieces.
Proof.
  induction pieces as [|p rest IH]; [congruence|]. intros _ Hclean.
  inversion Hclean as [|? ? Hp Hrest]; subst.
  destruct rest as [|q rest].
  - simpl. by apply split_clean.
  - rewrite join_cons by discriminate. cbn [app].
    rewrite split_clean_sep by assumption. f_equal. by apply IH.
Qed.

Lemma join_app (sep : jsstring) (l k : list jsstring) :
  l <> [] -> k <> [] ->
  JS.join sep (l ++ k) = JS.join sep l ++ sep ++ JS.join sep k.
Proof.
  induction l as [|p l IH]; [congruence|]. intros _ Hk.
  destruct l as [|q l].
  - simpl app at 1. by rewrite join_cons.
  - change ((p :: q :: l) ++ k) with (p :: ((q :: l) ++ k)).
    rewrite join_cons by discriminate. rewrite IH by (discriminate || assumption).
    rewrite (join_cons sep p (q :: l)) by discriminate. by rewrite <- !app_assoc.
Qed.

(** ** The code preview of a card *)

Lemma code_of_six_lines_shown_whole (expanded : bool) (s : Snippet) :
  (length (JS.split 10%N (codigo s)) <= 6)%nat ->
  SnippetCard.codePreview expanded s = codigo s
  /\ SnippetCard.showToggle s = false.
Proof.
  intros Hshort. unfold SnippetCard.codePreview, SnippetCard.showToggle.
  assert (Hlt : (6 <? length (JS.split 10%N (codigo s)))%nat = false)
    by (apply Nat.ltb_ge; exact Hshort).
  rewrite Hlt. split; [|reflexivity].
  destruct expanded; [reflexivity|].
  rewrite firstn_all2 by exact Hshort. by rewrite app_nil_r, join_split.
Qed.

(** X1. A code of at most six lines is shown whole by the collapsed card,
    and the card renders no button to expand it. *)
Theorem codePreview_short_is_code (expanded : bool) (s : Snippet) :
  (length (JS.split 10%N (codigo s)) <= 6)%nat ->
  SnippetCard.codePreview expanded s = codigo s
  /\ SnippetCard.showToggle s = false.
Proof. apply code_of_six_lines_shown_whole. Qed.

Lemma long_code_cut_at_sixth_break (s : Snippet) :
  (6 < length (JS.split 10%N (codigo s)))%nat ->
  exists kept rest,
    codigo s = kept ++ [10%N] ++ rest
    /\ SnippetCard.codePreview false s = kept ++ [10%N] ++ js "..."
    /\ JS.split 10%N kept = firstn 6 (JS.split 10%N (codigo s))
    /\ length (JS.split 10%N kept) = 6%nat
    /\ SnippetCard.showToggle s = true.
Proof.
  intros Hlong. unfold SnippetCard.codePreview, SnippetCard.showToggle.
  assert (Hlt : (6 <? length (JS.split 10%N (codigo s)))%nat = true)
    by (apply Nat.ltb_lt; exact Hlong).
  rewrite Hlt.
  set (lines := JS.split 10%N (codigo s)) in *.
  assert (Hfirst : firstn 6 lines <> []).
  { intros E. apply (f_equal (@length _)) in E. rewrite length_firstn in E. cbn [length] in E. lia. }
  assert (Hlast : skipn 6 lines <> []).
  { intros E. apply (f_equal (@length _)) in E. rewrite length_skipn in E. cbn [length] in E. lia. }
  exists (JS.join [10%N] (firstn 6 lines)), (JS.join [10%N] (skipn 6 lines)).
  assert (Hsplit : JS.split 10%N (JS.join [10%N] (firstn 6 lines)) = firstn 6 lines).
  { apply split_join; [exact Hfirst|]. apply Forall_take, split_pieces_clean. }
  repeat split.
  - rewrite <- join_app by assumption. rewrite firstn_skipn. subst lines.
    by rewrite join_split.
  - exact Hsplit.
  - rewrite Hsplit, length_firstn. lia.
Qed.

(** X2. For a code of more than six lines the collapsed preview is the
    code cut at its sixth line break and continued by a line of three dots:
    the part kept is a prefix of the code, has exactly six lines, and is
    followed in the code by a line break. *)
Theorem codePreview_long_truncates (s : Snippet) :
  (6 < length (JS.split 10%N (codigo s)))%nat ->
  exists kept rest,
    codigo s = kept ++ [10%N] ++ rest
    /\ SnippetCard.codePreview false s = kept ++ [10%N] ++ js "..."
    /\ JS.split 10%N kept = firstn 6 (JS.split 10%N (codigo s))
    /\ length (JS.split 10%N kept) = 6%nat
    /\ SnippetCard.showToggle s = true.
Proof. apply long_code_cut_at_sixth_break. Qed.

Lemma countUnit_app (c : char16) (s t : jsstring) :
  countUnit c (s ++ t) = (countUnit c s + countUnit c t)%nat.
Proof. unfold countUnit. by rewrite List.filter_app, length_app. Qed.

(** X3. The collapsed preview never has more than seven lines: as many as
    the code when that has at most six, and seven otherwise. *)
Theorem codePreview_line_count (s : Snippet) :
  length (JS.split 10%N (SnippetCard.codePreview false s))
  = Nat.min (length (JS.split 10%N (codigo s))) 7.
Proof.
  remember (length (JS.split 10%N (codigo s))) as n eqn:Hn.
  destruct (Nat.le_gt_cases n 6) as [Hshort|Hlong].
  - assert (Hs : (length (JS.split 10%N (codigo s)) <= 6)%nat) by (rewrite <- Hn; exact Hshort).
    destruct (code_of_six_lines_shown_whole false s Hs) as [-> _]. rewrite <- Hn. lia.
  - assert (Hl : (6 < length (JS.split 10%N (codigo s)))%nat) by (rewrite <- Hn; exact Hlong).
    destruct (long_code_cut_at_sixth_break s Hl) as (kept & rest & _ & -> & _ & Hk & _).
    rewrite length_split in *. rewrite !countUnit_app.
    change (countUnit 10%N [10%N]) with 1%nat.
    change (countUnit 10%N (js "...")) with 0%nat.
    remember (countUnit 10%N kept) as k. lia.
Qed.

(** X4. The button to expand the code is rendered exactly when the code
    contains at least six line breaks. *)
Theorem showToggle_counts_breaks (s : Snippet) :
  SnippetCard.showToggle s = true <-> (6 <= countUnit 10%N (codigo s))%nat.
Proof.
  unfold SnippetCard.showToggle. rewrite length_split, Nat.ltb_lt. lia.
Qed.

(** ** Algebra of the filter *)

Lemma List_filter_ext_in {A : Type} (f g : A -> bool) (l : list A) :
  (forall x, x ∈ l -> f x = g x) -> List.filter f l = List.filter g l.
Proof.
  intros Hfg. apply filter_ext_in. intros x Hx. apply Hfg. by apply list_elem_of_In.
Qed.

Lemma filter_sublist_weaker {A : Type} (f g : A -> bool) (l : list A) :
  (forall x, f x = true -> g x = true) -> sublist (List.filter f l) (List.filter g l).
Proof.
  intros Hfg. induction l as [|x l IH]; simpl; [constructor|].
  destruct (f x) eqn:Ef.
  - rewrite (Hfg x Ef). by constructor.
  - destruct (g x); [by constructor | exact IH].
Qed.


Lemma includes_self (s : jsstring) : includes s s = true.
Proof. apply includes_substring. exists [], []. by rewrite app_nil_r. Qed.

Section FilterAlgebra.
Context `{UnicodeCase}.

Lemma tagKeeps_superset (T : list Tag) (s : Snippet) :
  tagKeeps T s = true <-> TagSuperset T s.
Proof.
  unfold tagKeeps. destruct T as [|t T].
  - simpl. split; [|reflexivity]. intros _ t Ht. inversion Ht.
  - apply tagCallback_superset.
Qed.

Lemma TagSuperset_ids (T : list Tag) (s : Snippet) :
  TagSuperset T s <-> forall id, id ∈ tagIds T -> HasTag s id.
Proof.
  unfold TagSuperset, tagIds. split.
  - intros Hall id Hid. apply list_elem_of_In, in_map_iff in Hid as (t & <- & Ht).
    apply Hall. by apply list_elem_of_In.
  - intros Hall t Ht. apply Hall, list_elem_of_In, in_map, list_elem_of_In, Ht.
Qed.

(** X5. Filtering what has been filtered, by the same criteria, changes
    nothing. *)
Theorem applyFilters_idempotent (S : list Snippet) (Q L : jsstring) (T : list Tag) :
  applyFilters (applyFilters S Q L T) Q L T = applyFilters S Q L T.
Proof.
  rewrite !applyFilters_as_filter, List_filter_filter.
  apply List_filter_ext_in. intros s _. by rewrite andb_diag.
Qed.

(** X6. Every snippet is judged on its own: the snippets kept of two lists
    put one after the other are those kept of the first followed by those
    kept of the second. *)
Theorem applyFilters_app (S1 S2 : list Snippet) (Q L : jsstring) (T : list Tag) :
  applyFilters (S1 ++ S2) Q L T = applyFilters S1 Q L T ++ applyFilters S2 Q L T.
Proof. rewrite !applyFilters_as_filter. apply List.filter_app. Qed.

(** X7. Selecting more tags never shows more: when every identifier selected
    in [T] is also selected in [T'], what [T'] keeps is a subsequence of
    what [T] keeps. *)
Theorem applyFilters_more_tags_narrows (S : list Snippet) (Q L : jsstring)
    (T T' : list Tag) :
  (forall id, id ∈ tagIds T -> id ∈ tagIds T') ->
  sublist (applyFilters S Q L T') (applyFilters S Q L T).
Proof.
  intros Hsub. rewrite !applyFilters_as_filter. apply filter_sublist_weaker.
  intros s Hs. apply andb_true_iff in Hs as [Hs HT]. rewrite Hs. simpl.
  apply tagKeeps_superset, TagSuperset_ids. intros id Hid.
  apply (proj1 (tagKeeps_superset T' s)) in HT.
  apply (proj1 (TagSuperset_ids T' s) HT). auto.
Qed.

(** X8. Only the identifiers of the selected tags matter: two selections
    with the same identifiers, in whatever order, with whatever names and
    however often repeated, keep the same snippets. *)
Theorem applyFilters_tag_ids_only (S : list Snippet) (Q L : jsstring) (T T' : list Tag) :
  (forall id, id ∈ tagIds T <-> id ∈ tagIds T') ->
  applyFilters S Q L T = applyFilters S Q L T'.
Proof.
  intros Hsame. rewrite !applyFilters_as_filter. apply List_filter_ext_in.
  intros s _. f_equal. apply eq_true_iff_eq.
  rewrite !tagKeeps_superset, !TagSuperset_ids.
  split; intros Hall id Hid; apply Hall, Hsame, Hid.
Qed.

(** X9. The order of the three steps is immaterial: any two steps commute,
    and the steps taken in the reverse order give the result of
    [applyFilters]. *)
Theorem filter_steps_commute (S : list Snippet) (Q L : jsstring) (T : list Tag) :
  textFilter Q (languageFilter L S) = languageFilter L (textFilter Q S)
  /\ textFilter Q (tagFilter T S) = tagFilter T (textFilter Q S)
  /\ languageFilter L (tagFilter T S) = tagFilter T (languageFilter L S)
  /\ textFilter Q (languageFilter L (tagFilter T S)) = applyFilters S Q L T.
Proof.
  unfold applyFilters.
  rewrite !textFilter_as_filter, !languageFilter_as_filter, !tagFilter_as_filter.
  rewrite !List_filter_filter.
  repeat split; apply List_filter_ext_in; intros s _;
    destruct (textKeeps Q s), (languageKeeps L s), (tagKeeps T s); reflexivity.
Qed.

(** X10. A snippet is found by its own title, description or code, written
    in any case: when the query equals one of them up to case, the snippet
    is among those shown. *)
Theorem found_by_own_text (S : list Snippet) (Q : jsstring) (s : Snippet) :
  s ∈ S ->
  SameNameCI (titulo s) Q
  \/ (exists d, descricao s = Some d /\ SameNameCI d Q)
  \/ SameNameCI (codigo s) Q ->
  s ∈ applyFilters S Q (js "all") [].
Proof.
  intros Hs Hsame. rewrite text_only, textFilter_as_filter.
  apply elem_of_List_filter. split; [exact Hs|].
  unfold textKeeps. destruct (truthyString Q); [|reflexivity].
  apply textCallback_matches. unfold MatchesText, ContainsCI. unfold SameNameCI in Hsame.
  destruct Hsame as [E|[(d & Hd & E)|E]].
  - left. rewrite E. apply includes_substring, includes_self.
  - right; left. exists d. split; [exact Hd|]. rewrite E.
    apply includes_substring, includes_self.
  - right; right. rewrite E. apply includes_substring, includes_self.
Qed.


End FilterAlgebra.

(** ** The filter controls of the dashboard *)

Lemma find_id_elem_of (id : Z) (sel : list Tag) :
  is_Some (List.find (fun t => id_tag t =? id) sel) <-> id ∈ tagIds sel.
Proof.
  unfold tagIds. split.
  - intros [t Ht]. apply find_some in Ht as [Hin Hid]. apply Z.eqb_eq in Hid.
    subst id. apply list_elem_of_In, in_map, Hin.
  - intros Hid. apply list_elem_of_In, in_map_iff in Hid as (t & Ht & Hin).
    destruct (List.find (fun t => id_tag t =? id) sel) eqn:E; [eauto|].
    exfalso. pose proof (find_none _ _ E t Hin) as Hno. simpl in Hno. lia.
Qed.

Section Controls.
Context `{UnicodeCase}.


(** X13. Clearing the filters and letting the effect run shows every
    snippet: the list shown is the list of snippets, the button that clears
    is no longer rendered, and nothing was sent or notified. *)
Theorem clearFilters_shows_everything (b : Backend) (w : Store) :
  let w' := exec (bind Dashboard.clearFilters
                    (fun _ => Dashboard.onRender Dashboard.applyFiltersEffect)) b w in
  DashboardState.filteredSnippets (dashboard w') = DashboardState.snippets (dashboard w)
  /\ DashboardState.snippets (dashboard w') = DashboardState.snippets (dashboard w)
  /\ DashboardView.showClear (dashboard w') = false
  /\ form w' = form w /\ toasts w' = toasts w /\ sent w' = sent w.
Proof. cbv zeta. repeat split; reflexivity. Qed.

End Controls.

Lemma addTagFilter_effect (b : Backend) (w : Store) (tag : Tag) :
  let choose := Dashboard.onRender (fun r => Dashboard.addTagFilter r tag) in
  let sel := DashboardState.selectedTags (dashboard w) in
  let sel' := DashboardState.selectedTags (dashboard (exec choose b w)) in
  id_tag tag ∈ tagIds sel'
  /\ (exists added, sel' = sel ++ added)
  /\ (NoDup (tagIds sel) -> NoDup (tagIds sel'))
  /\ exec (bind choose (fun _ => choose)) b w = exec choose b w.
Proof.
  cbv zeta. unfold exec, bind, Dashboard.onRender, Dashboard.addTagFilter,
    Dashboard.setSelectedTags, modifyDashboard, ret.
  set (sel := DashboardState.selectedTags (dashboard w)).
  case_bool_decide as Hp; simpl.
  - fold sel. rewrite bool_decide_eq_true_2 by exact Hp. simpl.
    split; [by apply find_id_elem_of|]. split; [exists []; by rewrite app_nil_r|].
    split; [auto|]. by destruct w.
  - assert (Hnow : is_Some (List.find (fun t => id_tag t =? id_tag tag) (sel ++ [tag]))).
    { apply find_id_elem_of. unfold tagIds. rewrite map_app.
      apply elem_of_app. right. simpl. left. }
    rewrite bool_decide_eq_true_2 by exact Hnow. simpl.
    split; [by apply find_id_elem_of|]. split; [by exists [tag]|].
    split; [|reflexivity].
    intros Hnd. unfold tagIds. rewrite map_app. apply NoDup_app. split; [exact Hnd|].
    split; [|apply NoDup_singleton].
    intros id Hid Hin. apply list_elem_of_singleton in Hin. subst id.
    apply Hp, find_id_elem_of, Hid.
Qed.

(** X14. Choosing a tag to filter by: the tag's identifier is selected
    afterwards, the tags selected before stay in their order, a selection
    without repeated identifiers stays so, and choosing the same tag again
    changes nothing. *)
Theorem addTagFilter_selects_once (b : Backend) (w : Store) (tag : Tag) :
  let choose := Dashboard.onRender (fun r => Dashboard.addTagFilter r tag) in
  let sel := DashboardState.selectedTags (dashboard w) in
  let sel' := DashboardState.selectedTags (dashboard (exec choose b w)) in
  id_tag tag ∈ tagIds sel'
  /\ (exists added, sel' = sel ++ added)
  /\ (NoDup (tagIds sel) -> NoDup (tagIds sel'))
  /\ exec (bind choose (fun _ => choose)) b w = exec choose b w.
Proof. apply addTagFilter_effect. Qed.

(** X15. Removing a tag from the filter removes every selected tag with that
    identifier and nothing else: the other tags stay, in their order. *)
Theorem removeTagFilter_removes (b : Backend) (w : Store) (tagId : Z) :
  let sel := DashboardState.selectedTags (dashboard w) in
  let sel' := DashboardState.selectedTags
                (dashboard (exec (Dashboard.onRender
                                    (fun r => Dashboard.removeTagFilter r tagId)) b w)) in
  (tagId ∉ tagIds sel')
  /\ KeepsExactly (fun t => id_tag t <> tagId) sel sel'
  /\ (forall t, t ∈ sel' <-> t ∈ sel /\ id_tag t <> tagId)
  /\ (NoDup (tagIds sel) -> NoDup (tagIds sel')).
Proof.
  cbv zeta. unfold exec, Dashboard.onRender, Dashboard.removeTagFilter,
    Dashboard.setSelectedTags, modifyDashboard. simpl.
  set (sel := DashboardState.selectedTags (dashboard w)).
  assert (Hk : KeepsExactly (fun t => id_tag t <> tagId) sel
                 (List.filter (fun tag => negb (id_tag tag =? tagId)) sel)).
  { apply KeepsExactly_filter. intros t _. rewrite negb_true_iff. apply Z.eqb_neq. }
  pose proof (KeepsExactly_elem_of _ _ _ Hk) as Hin.
  split; [|split; [exact Hk|split; [exact Hin|]]].
  - unfold tagIds. intros Hid. apply list_elem_of_In, in_map_iff in Hid as (t & Ht & Hin').
    apply list_elem_of_In, Hin in Hin' as [_ Hne]. contradiction.
  - intros Hnd. unfold tagIds in *. apply KeepsExactly_sublist in Hk.
    eapply sublist_NoDup; [exact Hnd|]. clear -Hk.
    induction Hk; simpl; by constructor.
Qed.

(** X16. Choosing a tag whose identifier is not selected and removing it
    again gives back the selection there was. *)
Theorem addTagFilter_removeTagFilter (b : Backend) (w : Store) (tag : Tag) :
  id_tag tag ∉ tagIds (DashboardState.selectedTags (dashboard w)) ->
  DashboardState.selectedTags
    (dashboard
       (exec (bind (Dashboard.onRender (fun r => Dashboard.addTagFilter r tag))
                (fun _ => Dashboard.onRender
                            (fun r => Dashboard.removeTagFilter r (id_tag tag)))) b w))
  = DashboardState.selectedTags (dashboard w).
Proof.
  intros Hfresh. unfold exec, bind, Dashboard.onRender, Dashboard.addTagFilter,
    Dashboard.removeTagFilter, Dashboard.setSelectedTags, modifyDashboard, ret.
  set (sel := DashboardState.selectedTags (dashboard w)) in *.
  rewrite bool_decide_eq_false_2 by (rewrite find_id_elem_of; exact Hfresh). simpl.
  rewrite List.filter_app. simpl. rewrite Z.eqb_refl. simpl. rewrite app_nil_r.
  rewrite (List_filter_ext_in _ (fun _ => true)); [apply List_filter_true|].
  intros t Ht. apply negb_true_iff, Z.eqb_neq. intros E. apply Hfresh.
  unfold tagIds. rewrite <- E. apply list_elem_of_In, in_map, list_elem_of_In, Ht.
Qed.

Lemma length_filter_le {A : Type} (f : A -> bool) (l : list A) :
  (length (List.filter f l) <= length l)%nat.
Proof. apply sublist_length, filter_sublist. Qed.


(** ** Deleting from the dashboard *)

Lemma handleDelete_after_deletion (user : option User.t) (id : Z) (b : Backend)
    (w : Store) (first : PostgrestResponse unit) (u : unit) :
  b (length (sent w)) (DeleteSnippetTags (Some id)) = Fulfilled first ->
  b (S (length (sent w))) (DeleteSnippet id) = Fulfilled (Success u) ->
  Dashboard.handleDelete user id b w
  = Dashboard.loadSnippets user b
      (mkStore (dashboard w) (form w) (toasts w ++ [toastDeleted])
         (sent w ++ [DeleteSnippetTags (Some id); DeleteSnippet id])).
Proof.
  intros Hfirst Hsecond.
  unfold Dashboard.handleDelete, Dashboard.handleDelete_body, tryCatch, bind, await, toast.
  cbn [sent]. rewrite Hfirst. cbn [sent dashboard form toasts].
  rewrite length_app, Nat.add_1_r, Hsecond. cbn [sent dashboard form toasts].
  rewrite <- app_assoc. cbn [app].
  pose proof (loadSnippets_returns user b
    (mkStore (dashboard w) (form w) (toasts w ++ [toastDeleted])
       (sent w ++ [DeleteSnippetTags (Some id); DeleteSnippet id]))) as (Hn & _).
  unfold toastDeleted in *.
  destruct (Dashboard.loadSnippets user b _) as [[[]|e] w']; simpl in *;
    [reflexivity | discriminate].
Qed.

(** X18. Once the deletion of the snippet is answered with success the user
    is told so and the list is reloaded, whatever the answer to the deletion
    of its tag links was: that first answer, an error included, is not
    looked at. *)
Theorem handleDelete_ignores_first_answer (user : option User.t) (id : Z) (b : Backend)
    (w : Store) (first : PostgrestResponse unit) (u : unit) :
  b (length (sent w)) (DeleteSnippetTags (Some id)) = Fulfilled first ->
  b (S (length (sent w))) (DeleteSnippet id) = Fulfilled (Success u) ->
  Dashboard.handleDelete user id b w
  = Dashboard.loadSnippets user b
      (mkStore (dashboard w) (form w) (toasts w ++ [toastDeleted])
         (sent w ++ [DeleteSnippetTags (Some id); DeleteSnippet id])).
Proof. apply handleDelete_after_deletion. Qed.

(** X19. When the snippet is deleted but the reload that follows fails, the
    deleted snippet stays in the list in memory: the dashboard's state is
    as before, and the user sees the notice of the removal followed by the
    error of the reload. *)
Theorem handleDelete_reload_failure_keeps_list (user : option User.t) (id : Z)
    (b : Backend) (w : Store) (first : PostgrestResponse unit) (u : unit) (e : JSError) :
  b (length (sent w)) (DeleteSnippetTags (Some id)) = Fulfilled first ->
  b (S (length (sent w))) (DeleteSnippet id) = Fulfilled (Success u) ->
  throws (Dashboard.loadSnippets_body user) b
    (mkStore (dashboard w) (form w) (toasts w ++ [toastDeleted])
       (sent w ++ [DeleteSnippetTags (Some id); DeleteSnippet id])) e ->
  let w' := exec (Dashboard.handleDelete user id) b w in
  dashboard w' = dashboard w
  /\ form w' = form w
  /\ toasts w'
     = toasts w ++ [ toastDeleted;
                     {| title := js "Erro ao carregar snippets"; description := message e;
                        variant := destructive |} ].
Proof.
  intros Hfirst Hsecond Hthrow. cbv zeta. unfold exec.
  rewrite (handleDelete_after_deletion user id b w first u Hfirst Hsecond).
  destruct (tried_throws_clean (LoadSnippets user) b _ e Hthrow) as (Hd & Hf & Ht).
  cbn [tried] in *. unfold Dashboard.loadSnippets.
  rewrite (tryCatch_caught _ _ b _ e Hthrow). unfold toast. simpl.
  rewrite Hd, Hf, Ht. simpl. by rewrite <- app_assoc.
Qed.

(** ** Submitting the form *)

(** X20. Without a signed-in user [handleSubmit] does nothing at all,
    whatever the form holds. With a user, a form whose title or code is
    blank, or whose language is not chosen, is not submitted: no request is
    sent, no state is written, the callbacks of the form are not called, and
    one destructive notification asks for the required fields. *)
Theorem handleSubmit_invalid_sends_nothing (p : SnippetForm.Props) (user : User.t)
    (r : FormState.t) (b : Backend) (w : Store) :
  SnippetForm.handleSubmit p None r b w = (Normal tt, w)
  /\ (trim (FormState.titulo (FormState.formData r)) = []
      \/ trim (FormState.codigo (FormState.formData r)) = []
      \/ FormState.id_linguagem (FormState.formData r) = 0 ->
      SnippetForm.handleSubmit p (Some user) r b w
      = (Normal tt, mkStore (dashboard w) (form w) (toasts w ++ [toastRequired]) (sent w))).
Proof.
  split; [reflexivity|]. intros Hinvalid. unfold SnippetForm.handleSubmit.
  assert (Hguard :
    negb (truthyString (trim (FormState.titulo (FormState.formData r))))
    || negb (truthyString (trim (FormState.codigo (FormState.formData r))))
    || negb (truthyNumber (FormState.id_linguagem (FormState.formData r))) = true).
  { destruct Hinvalid as [E|[E|E]]; rewrite E; simpl.
    - reflexivity.
    - by rewrite orb_true_r.
    - by rewrite orb_true_r. }
  cbv zeta. rewrite Hguard. reflexivity.
Qed.

(** X21. Creating a snippet. For a valid form with no snippet being edited,
    when the database stores the snippet and, if tags are selected, their
    links: the links sent pair the key the database returned with each
    selected tag, in the order of the selection, and none is sent for an
    empty selection; the user is told the snippet was created; the dashboard
    reloads its list and closes the form; the form is no longer loading. *)
Theorem handleSubmit_creates (owner : option User.t) (open : bool) (user : User.t)
    (r : FormState.t) (b : Backend) (w : Store) (row : InsertedSnippet) (u : unit) :
  trim (FormState.titulo (FormState.formData r)) <> [] ->
  trim (FormState.codigo (FormState.formData r)) <> [] ->
  FormState.id_linguagem (FormState.formData r) <> 0 ->
  b (length (sent w)) (insertOf user r) = Fulfilled (Success row) ->
  (FormState.selectedTags r <> [] ->
   b (S (length (sent w))) (linksOf (Some (inserted_id_snippet row)) r)
   = Fulfilled (Success u)) ->
  let requests :=
    insertOf user r
    :: (if bool_decide (FormState.selectedTags r = []) then []
        else [linksOf (Some (inserted_id_snippet row)) r]) in
  let reloaded :=
    exec (Dashboard.loadSnippets owner) b
      (mkStore (dashboard w) (FormState.with_loading true (form w))
         (toasts w ++ [toastCreated]) (sent w ++ requests)) in
  SnippetForm.handleSubmit (mountedProps owner open None) (Some user) r b w
  = (Normal tt,
     mkStore
       (DashboardState.with_editingSnippet None
          (DashboardState.with_showForm false (dashboard reloaded)))
       (FormState.with_loading false (form reloaded))
       (toasts reloaded) (sent reloaded)).
Proof.
  intros Htitle Hcode Hlang Hinsert Hanswer. cbv zeta.
  apply truthyString_nonempty in Htitle, Hcode.
  unfold SnippetForm.handleSubmit. cbv zeta. rewrite Htitle, Hcode.
  unfold truthyNumber. rewrite (proj2 (Z.eqb_neq _ _) Hlang). simpl.
  unfold SnippetForm.handleSubmit_try, SnippetForm.handleSubmit_body, mountedProps,
    SnippetForm.setLoading, SnippetForm.checkError, Dashboard.handleFormSave,
    Dashboard.handleFormClose, Dashboard.setShowForm, Dashboard.setEditingSnippet,
    SnippetForm.tagInserts.
  unfold tryFinally, tryCatch, bind, await, modifyForm, modifyDashboard, toast, ret.
  cbn [SnippetForm.snippet SnippetForm.onSave SnippetForm.onOpenChange
       sent dashboard form toasts].
  unfold insertOf, linksOf, toastCreated, exec in *.
  rewrite Hinsert. cbn [sent dashboard form toasts].
  pose proof (loadSnippets_returns owner b) as Hret.
  destruct (FormState.selectedTags r) as [|t sel] eqn:Hsel.
  - rewrite bool_decide_eq_true_2 by reflexivity. cbn.
    match goal with
    | |- context [Dashboard.loadSnippets owner b ?w0] =>
        destruct (Hret w0) as (Hn & _);
        destruct (Dashboard.loadSnippets owner b w0) as [[[]|e] w']; simpl in *;
          [reflexivity | discriminate]
    end.
  - rewrite bool_decide_eq_false_2 by discriminate.
    cbn [length Nat.ltb Nat.leb sent dashboard form toasts].
    rewrite length_app, Nat.add_1_r, (Hanswer ltac:(discriminate)).
    cbn [sent dashboard form toasts]. rewrite <- app_assoc. cbn [app].
    match goal with
    | |- context [Dashboard.loadSnippets owner b ?w0] =>
        destruct (Hret w0) as (Hn & _);
        destruct (Dashboard.loadSnippets owner b w0) as [[[]|e] w']; simpl in *;
          [reflexivity | discriminate]
    end.
Qed.

(** X22. Updating a snippet is not undone when its tags cannot be linked
    again: once the update is stored and the old links are deleted, a failing
    insertion of the links ends the submission with the error shown; the
    three requests have been sent and no further one follows; the form stays
    open and the dashboard's state is as before. *)
Theorem handleSubmit_update_links_failure (owner : option User.t) (open : bool)
    (sn : SnippetForm.Snippet) (user : User.t) (r : FormState.t) (b : Backend) (w : Store)
    (u : unit) (deleted : PostgrestResponse unit) (e : JSError) :
  trim (FormState.titulo (FormState.formData r)) <> [] ->
  trim (FormState.codigo (FormState.formData r)) <> [] ->
  FormState.id_linguagem (FormState.formData r) <> 0 ->
  FormState.selectedTags r <> [] ->
  b (length (sent w)) (updateOf sn r) = Fulfilled (Success u) ->
  b (S (length (sent w))) (DeleteSnippetTags (SnippetForm.id_snippet sn))
  = Fulfilled deleted ->
  b (S (S (length (sent w)))) (linksOf (SnippetForm.id_snippet sn) r) = Rejected e
  \/ b (S (S (length (sent w)))) (linksOf (SnippetForm.id_snippet sn) r)
     = Fulfilled (Failure e) ->
  SnippetForm.handleSubmit (mountedProps owner open (Some sn)) (Some user) r b w
  = (Normal tt,
     mkStore (dashboard w) (FormState.with_loading false (form w))
       (toasts w ++ [toastSaveError e])
       (sent w ++ [updateOf sn r; DeleteSnippetTags (SnippetForm.id_snippet sn);
                   linksOf (SnippetForm.id_snippet sn) r])).
Proof.
  intros Htitle Hcode Hlang Hsel Hupdate Hdelete Hlinks.
  apply truthyString_nonempty in Htitle, Hcode.
  unfold SnippetForm.handleSubmit. cbv zeta. rewrite Htitle, Hcode.
  unfold truthyNumber. rewrite (proj2 (Z.eqb_neq _ _) Hlang). simpl.
  unfold SnippetForm.handleSubmit_try, SnippetForm.handleSubmit_body, mountedProps,
    SnippetForm.setLoading, SnippetForm.checkError, SnippetForm.tagInserts.
  unfold tryFinally, tryCatch, bind, await, modifyForm, toast, ret, throw.
  cbn [SnippetForm.snippet SnippetForm.onSave SnippetForm.onOpenChange
       sent dashboard form toasts].
  unfold updateOf, linksOf, toastSaveError in *.
  rewrite Hupdate. cbn [sent dashboard form toasts].
  rewrite length_app, Nat.add_1_r, Hdelete. cbn [sent dashboard form toasts].
  destruct (FormState.selectedTags r) as [|t sel] eqn:Esel; [congruence|].
  cbn [length Nat.ltb Nat.leb sent dashboard form toasts].
  rewrite !length_app, !Nat.add_1_r. cbn [length].
  rewrite <- !app_assoc. cbn [app].
  destruct Hlinks as [Hl|Hl]; rewrite Hl; reflexivity.
Qed.

(** ** Editing a snippet *)

Lemma loadSnippets_sent (user : option User.t) (b : Backend) (w : Store) :
  sent (exec (Dashboard.loadSnippets user) b w) = sent w ++ reloadOf user.
Proof.
  unfold exec, Dashboard.loadSnippets, Dashboard.loadSnippets_body, Dashboard.setSnippets,
    tryCatch, bind, await, nonNull, throw, ret, toast, modifyDashboard, reloadOf.
  destruct user as [u|]; simpl.
  - by destruct (b _ _) as [e|[e|data]].
  - by rewrite app_nil_r.
Qed.

Lemma loadSnippets_toasts (user : option User.t) (b : Backend) (w : Store) :
  exists later, toasts (exec (Dashboard.loadSnippets user) b w) = toasts w ++ later.
Proof.
  unfold exec, Dashboard.loadSnippets, Dashboard.loadSnippets_body, Dashboard.setSnippets,
    tryCatch, bind, await, nonNull, throw, ret, toast, modifyDashboard.
  destruct user as [u|]; cbn [fst snd toasts];
    [destruct (b _ _) as [e|[e|data]]; cbn [fst snd toasts]|];
    try (eexists; reflexivity).
  exists []. by rewrite app_nil_r.
Qed.

(** Updating a snippet from a valid form, every checked request being
    accepted. *)
Lemma handleSubmit_updates (owner : option User.t) (open : bool)
    (sn : SnippetForm.Snippet) (user : User.t) (r : FormState.t) (b : Backend) (w : Store)
    (u u' : unit) (deleted : PostgrestResponse unit) :
  trim (FormState.titulo (FormState.formData r)) <> [] ->
  trim (FormState.codigo (FormState.formData r)) <> [] ->
  FormState.id_linguagem (FormState.formData r) <> 0 ->
  b (length (sent w)) (updateOf sn r) = Fulfilled (Success u) ->
  b (S (length (sent w))) (DeleteSnippetTags (SnippetForm.id_snippet sn))
  = Fulfilled deleted ->
  (FormState.selectedTags r <> [] ->
   b (S (S (length (sent w)))) (linksOf (SnippetForm.id_snippet sn) r)
   = Fulfilled (Success u')) ->
  let requests :=
    updateOf sn r :: DeleteSnippetTags (SnippetForm.id_snippet sn)
    :: (if bool_decide (FormState.selectedTags r = []) then []
        else [linksOf (SnippetForm.id_snippet sn) r]) in
  let reloaded :=
    exec (Dashboard.loadSnippets owner) b
      (mkStore (dashboard w) (FormState.with_loading true (form w))
         (toasts w ++ [toastUpdated]) (sent w ++ requests)) in
  SnippetForm.handleSubmit (mountedProps owner open (Some sn)) (Some user) r b w
  = (Normal tt,
     mkStore
       (DashboardState.with_editingSnippet None
          (DashboardState.with_showForm false (dashboard reloaded)))
       (FormState.with_loading false (form reloaded))
       (toasts reloaded) (sent reloaded)).
Proof.
  intros Htitle Hcode Hlang Hupdate Hdelete Hanswer. cbv zeta.
  apply truthyString_nonempty in Htitle, Hcode.
  unfold SnippetForm.handleSubmit. cbv zeta. rewrite Htitle, Hcode.
  unfold truthyNumber. rewrite (proj2 (Z.eqb_neq _ _) Hlang). simpl.
  unfold SnippetForm.handleSubmit_try, SnippetForm.handleSubmit_body, mountedProps,
    SnippetForm.setLoading, SnippetForm.checkError, Dashboard.handleFormSave,
    Dashboard.handleFormClose, Dashboard.setShowForm, Dashboard.setEditingSnippet,
    SnippetForm.tagInserts.
  unfold tryFinally, tryCatch, bind, await, modifyForm, modifyDashboard, toast, ret.
  cbn [SnippetForm.snippet SnippetForm.onSave SnippetForm.onOpenChange
       sent dashboard form toasts].
  unfold updateOf, linksOf, toastUpdated, exec in *.
  rewrite Hupdate. cbn [sent dashboard form toasts].
  rewrite length_app, Nat.add_1_r, Hdelete. cbn [sent dashboard form toasts].
  pose proof (loadSnippets_returns owner b) as Hret.
  destruct (FormState.selectedTags r) as [|t sel] eqn:Hsel.
  - rewrite bool_decide_eq_true_2 by reflexivity.
    cbn [length Nat.ltb Nat.leb sent dashboard form toasts].
    rewrite <- !app_assoc. cbn [app].
    match goal with
    | |- context [Dashboard.loadSnippets owner b ?w0] =>
        destruct (Hret w0) as (Hn & _);
        destruct (Dashboard.loadSnippets owner b w0) as [[[]|e] w']; simpl in *;
          [reflexivity | discriminate]
    end.
  - rewrite bool_decide_eq_false_2 by discriminate.
    cbn [length Nat.ltb Nat.leb sent dashboard form toasts].
    rewrite !length_app, !Nat.add_1_r. cbn [length].
    rewrite (Hanswer ltac:(discriminate)).
    cbn [sent dashboard form toasts]. rewrite <- !app_assoc. cbn [app].
    match goal with
    | |- context [Dashboard.loadSnippets owner b ?w0] =>
        destruct (Hret w0) as (Hn & _);
        destruct (Dashboard.loadSnippets owner b w0) as [[[]|e] w']; simpl in *;
          [reflexivity | discriminate]
    end.
Qed.

(** X23. Opening for editing a snippet with a title, a code and a language,
    and submitting the form untouched, the database accepting the requests
    whose answer is checked: [handleSubmit] sends the snippet back as it
    was. The update carries its key, title, code and language, and its
    description, an empty one as none; the old links are deleted; the links
    inserted carry its tags in their order, and none is sent for a snippet
    without tags; then the list is reloaded. The user is told of the update
    and the form is closed. *)
Theorem edit_untouched_resubmits_snippet (owner : option User.t) (open : bool)
    (sn : SnippetForm.Snippet) (user : User.t) (b : Backend) (w : Store)
    (u u' : unit) (deleted : PostgrestResponse unit) :
  let p := mountedProps owner open (Some sn) in
  let update :=
    UpdateSnippet (SnippetForm.id_snippet sn) (SnippetForm.titulo sn)
      (match SnippetForm.descricao sn with
       | Some [] => None
       | o => o
       end)
      (SnippetForm.codigo sn) (SnippetForm.id_linguagem sn) in
  let tagsOf := match SnippetForm.snippet_tags sn with Some sts => sts | None => [] end in
  let links :=
    InsertSnippetTags
      (List.map (fun st => (SnippetForm.id_snippet sn, id_tag (tags st))) tagsOf) in
  let w' :=
    exec (bind (SnippetForm.snippetEffect p)
            (fun _ => SnippetForm.onRender (SnippetForm.handleSubmit p (Some user)))) b w in
  trim (SnippetForm.titulo sn) <> [] ->
  trim (SnippetForm.codigo sn) <> [] ->
  SnippetForm.id_linguagem sn <> 0 ->
  b (length (sent w)) update = Fulfilled (Success u) ->
  b (S (length (sent w))) (DeleteSnippetTags (SnippetForm.id_snippet sn))
  = Fulfilled deleted ->
  (tagsOf <> [] -> b (S (S (length (sent w)))) links = Fulfilled (Success u')) ->
  sent w'
  = sent w
    ++ [update; DeleteSnippetTags (SnippetForm.id_snippet sn)]
    ++ (if bool_decide (tagsOf = []) then [] else [links])
    ++ reloadOf owner
  /\ (exists later, toasts w' = toasts w ++ toastUpdated :: later)
  /\ DashboardState.showForm (dashboard w') = false
  /\ DashboardState.editingSnippet (dashboard w') = None
  /\ FormState.loading (form w') = false.
Proof.
  cbv zeta. intros Htitle Hcode Hlang Hupdate Hdelete Hanswer.
  set (p := mountedProps owner open (Some sn)) in *.
  unfold exec, bind, SnippetForm.onRender.
  destruct (SnippetForm.snippetEffect p b w) as [c w1] eqn:Heff.
  assert (Hw1 : c = Normal tt /\ sent w1 = sent w /\ toasts w1 = toasts w
                /\ FormState.formData (form w1)
                   = FormState.mkData (SnippetForm.titulo sn)
                       (match SnippetForm.descricao sn with
                        | Some d => if truthyString d then d else []
                        | None => []
                        end)
                       (SnippetForm.codigo sn) (SnippetForm.id_linguagem sn)
                /\ FormState.selectedTags (form w1)
                   = List.map tags
                       (match SnippetForm.snippet_tags sn with
                        | Some sts => sts | None => [] end)).
  { unfold SnippetForm.snippetEffect, bind, SnippetForm.setFormData,
      SnippetForm.setSelectedTags, modifyForm in Heff. subst p. simpl in Heff.
    injection Heff as <- <-. simpl.
    repeat split. by destruct (SnippetForm.snippet_tags sn). }
  destruct Hw1 as (-> & Hs & Ht & Hd & Hsel).
  assert (Eu : updateOf sn (form w1)
               = UpdateSnippet (SnippetForm.id_snippet sn) (SnippetForm.titulo sn)
                   (match SnippetForm.descricao sn with
                    | Some [] => None
                    | o => o
                    end)
                   (SnippetForm.codigo sn) (SnippetForm.id_linguagem sn)).
  { unfold updateOf. rewrite Hd. cbn [FormState.titulo FormState.descricao
      FormState.codigo FormState.id_linguagem]. f_equal.
    destruct (SnippetForm.descricao sn) as [[|c d]|]; reflexivity. }
  assert (El : linksOf (SnippetForm.id_snippet sn) (form w1)
               = InsertSnippetTags
                   (List.map (fun st => (SnippetForm.id_snippet sn, id_tag (tags st)))
                      (match SnippetForm.snippet_tags sn with
                       | Some sts => sts | None => [] end))).
  { unfold linksOf. by rewrite Hsel, map_map. }
  assert (Hnonempty : FormState.selectedTags (form w1) = []
                      <-> match SnippetForm.snippet_tags sn with
                          | Some sts => sts | None => [] end = []).
  { rewrite Hsel. split; [apply map_eq_nil | intros ->; reflexivity]. }
  subst p.
  rewrite (handleSubmit_updates owner open sn user (form w1) b w1 u u' deleted).
  - cbn [snd dashboard form toasts sent].
    rewrite loadSnippets_sent. rewrite Hs, Eu, El.
    split.
    { cbn [sent]. rewrite (bool_decide_ext _ _ Hnonempty).
      rewrite <- app_assoc. reflexivity. }
    split.
    { match goal with
      | |- context [exec (Dashboard.loadSnippets owner) b ?w0] =>
          destruct (loadSnippets_toasts owner b w0) as [later Hlater]
      end.
      rewrite Hlater. cbn [toasts]. rewrite Ht, <- app_assoc. by exists later. }
    repeat split.
  - by rewrite Hd.
  - by rewrite Hd.
  - by rewrite Hd.
  - rewrite Hs. unfold updateOf, SnippetForm.orNull. rewrite Hd.
    cbn [FormState.titulo FormState.descricao FormState.codigo FormState.id_linguagem].
    destruct (SnippetForm.descricao sn) as [[|c d]|]; exact Hupdate.
  - by rewrite Hs.
  - intros Hne. rewrite Hs. unfold linksOf. rewrite Hsel, map_map.
    apply Hanswer. intros E. apply Hne, Hnonempty, E.
Qed.

(** ** Names of new tags *)

Lemma trimStart_idempotent (s : jsstring) : trimStart (trimStart s) = trimStart s.
Proof.
  induction s as [|c r IH]; [reflexivity|]. simpl.
  destruct (isWhiteSpace c) eqn:Ec; [exact IH|]. simpl. by rewrite Ec.
Qed.

Lemma trimStart_snoc (s : jsstring) (c : char16) :
  isWhiteSpace c = false -> trimStart (s ++ [c]) = trimStart s ++ [c].
Proof.
  intros Hc. induction s as [|d r IH]; simpl; [by rewrite Hc|].
  destruct (isWhiteSpace d); [exact IH | reflexivity].
Qed.

Lemma trimStart_head (s : jsstring) :
  trimStart s = [] \/ exists c r, trimStart s = c :: r /\ isWhiteSpace c = false.
Proof.
  induction s as [|c r IH]; [by left|]. simpl.
  destruct (isWhiteSpace c) eqn:Ec; [exact IH|]. right. eauto.
Qed.

Lemma trimStart_fixed (c : char16) (r : jsstring) :
  isWhiteSpace c = false -> trimStart (c :: r) = c :: r.
Proof. intros Hc. simpl. by rewrite Hc. Qed.

Lemma trim_idempotent (s : jsstring) : trim (trim s) = trim s.
Proof.
  unfold trim, trimEnd.
  destruct (trimStart_head s) as [E|(c & r & E & Hc)]; rewrite E; [reflexivity|].
  assert (Hend : exists r', rev (trimStart (rev (c :: r))) = c :: r').
  { simpl rev. destruct (trimStart_head (rev r)) as [E'|(d & r' & E' & Hd)].
    - rewrite trimStart_snoc, E' by exact Hc. by exists [].
    - rewrite trimStart_snoc, E' by exact Hc. simpl. rewrite rev_app_distr. simpl. eauto. }
  destruct Hend as [r' Hend]. rewrite Hend.
  rewrite trimStart_fixed by exact Hc. rewrite <- Hend.
  by rewrite rev_involutive, trimStart_idempotent.
Qed.

Section TagNames.
Context `{UnicodeCase}.

(** X24. Whatever the database answers, [addTag] sends at most one request,
    and only to insert a tag under a name that is not blank and has no white
    space around it. *)
Theorem addTag_sends_trimmed_name (r : FormState.t) (b : Backend) (w : Store) :
  sent (exec (SnippetForm.addTag r) b w) = sent w
  \/ exists name,
       sent (exec (SnippetForm.addTag r) b w) = sent w ++ [InsertTag name]
       /\ name = trim (FormState.newTag r) /\ name <> [] /\ trim name = name.
Proof.
  unfold exec, SnippetForm.addTag.
  destruct (truthyString (trim (FormState.newTag r))) eqn:Hname; simpl; [|by left].
  apply truthyString_nonempty in Hname.
  unfold SnippetForm.addTag_try, SnippetForm.addTag_body.
  destruct (SnippetForm.existingTagOf r) as [t|].
  - left. unfold tryCatch, bind, ret, SnippetForm.setSelectedTags, SnippetForm.setNewTag,
      modifyForm. by destruct (negb _).
  - right. exists (trim (FormState.newTag r)).
    split; [|split; [reflexivity | split; [exact Hname | apply trim_idempotent]]].
    unfold tryCatch, bind, await, throw, toast, SnippetForm.setAllTags,
      SnippetForm.setSelectedTags, SnippetForm.setNewTag, modifyForm.
    by destruct (b _ _) as [e|[e|data]].
Qed.

(** X25. Whatever the database answers and whichever render [addTag] was
    created in, it writes the lists that render saw, extended by at most one
    tag: afterwards the list of all tags is the store's, untouched, or the
    render's list followed by the newly stored row; the selection is the
    store's, untouched, or the render's selection followed by one tag; the
    dashboard is untouched. Tags that reached the store after the render are
    therefore dropped by such a write. Selections without repeated
    identifiers, in the store and in the render, give one without, provided
    the key of a newly stored tag is not in the render's selection. *)
Theorem addTag_writes_render_lists (r : FormState.t) (b : Backend) (w : Store) :
  let w' := exec (SnippetForm.addTag r) b w in
  dashboard w' = dashboard w
  /\ (FormState.allTags (form w') = FormState.allTags (form w)
      \/ exists data, FormState.allTags (form w') = FormState.allTags r ++ [data])
  /\ (FormState.selectedTags (form w') = FormState.selectedTags (form w)
      \/ exists t, FormState.selectedTags (form w') = FormState.selectedTags r ++ [t])
  /\ (NoDup (tagIds (FormState.selectedTags (form w))) ->
      NoDup (tagIds (FormState.selectedTags r)) ->
      (forall data,
         b (length (sent w)) (InsertTag (trim (FormState.newTag r)))
         = Fulfilled (Success data) ->
         id_tag data ∉ tagIds (FormState.selectedTags r)) ->
      NoDup (tagIds (FormState.selectedTags (form w')))).
Proof.
  cbv zeta. unfold exec, SnippetForm.addTag.
  destruct (truthyString (trim (FormState.newTag r))) eqn:Hname; cbn [negb snd].
  2:{ repeat split; auto. }
  unfold SnippetForm.addTag_try, SnippetForm.addTag_body.
  destruct (SnippetForm.existingTagOf r) as [t|].
  - unfold tryCatch, bind, ret, SnippetForm.setSelectedTags, SnippetForm.setNewTag,
      modifyForm.
    case_bool_decide as Hp; cbn [negb snd fst dashboard form FormState.allTags
      FormState.selectedTags FormState.with_newTag FormState.with_selectedTags].
    + repeat split; auto.
    + split; [reflexivity|]. split; [by left|]. split; [right; by exists t|].
      intros _ Hnd _. unfold tagIds. rewrite map_app. apply NoDup_app.
      split; [exact Hnd|]. split; [|apply NoDup_singleton].
      intros id Hid Hin. apply list_elem_of_singleton in Hin. subst id.
      apply Hp, find_id_elem_of, Hid.
  - unfold tryCatch, bind, await, throw, toast, SnippetForm.setAllTags,
      SnippetForm.setSelectedTags, SnippetForm.setNewTag, modifyForm.
    destruct (b _ _) as [e|[e|data]] eqn:Hb;
      cbn [snd fst dashboard form FormState.allTags FormState.selectedTags
           FormState.with_newTag FormState.with_selectedTags FormState.with_allTags].
    + repeat split; auto.
    + repeat split; auto.
    + split; [reflexivity|]. split; [right; by exists data|].
      split; [right; by exists data|].
      intros _ Hnd Hfresh. unfold tagIds. rewrite map_app. apply NoDup_app.
      split; [exact Hnd|]. split; [|apply NoDup_singleton].
      intros id Hid Hin. apply list_elem_of_singleton in Hin. subst id.
      by apply (Hfresh data).
Qed.

(** X26. The highlighter of the form's preview is never given an empty
    language: it gets the lowercased name of the language the form holds,
    or [javascript]. *)
Theorem previewLanguage_never_empty (r : FormState.t) :
  FormView.previewLanguage r <> []
  /\ (FormView.previewLanguage r = js "javascript"
      \/ exists l, l ∈ FormState.languages r
                   /\ Language.id_linguagem l = FormState.id_linguagem (FormState.formData r)
                   /\ FormView.previewLanguage r = toLowerCase (Language.nome l)).
Proof.
  unfold FormView.previewLanguage.
  destruct (List.find _ (FormState.languages r)) as [l|] eqn:Hfind.
  - apply find_some in Hfind as [Hin Hid]. apply Z.eqb_eq in Hid. cbv zeta.
    destruct (truthyString (toLowerCase (Language.nome l))) eqn:Hname.
    + split; [by apply truthyString_nonempty|]. right. exists l.
      split; [by apply list_elem_of_In | by split].
    + split; [discriminate | by left].
  - split; [discriminate | by left].
Qed.

End TagNames.

(** A write from a render that is no longer current: the store has gained
    the tag [util] since, and the write of the render's list followed by the
    new row drops it. *)
Example addTag_stale_render_drops_tag :
  let r := FormState.with_newTag (js "go") (form (ex_store [])) in
  let w := mkStore DashboardState.initial
             (FormState.with_allTags [ex_python; ex_util] (form (ex_store []))) [] [] in
  FormState.allTags (form (exec (@SnippetForm.addTag asciiCase r) ex_backend w))
  = [ex_python; {| id_tag := 2; nome := js "go" |}].
Proof. vm_compute. reflexivity. Qed.

(** X27. The values of the language options identify the languages: two
    identifiers have the same value only when they are equal, no value is
    the sentinel [all] or empty, and [parseInt] reads every value back as
    the identifier it stands for. *)
Theorem language_option_values (n m : Z) :
  (Number_toString n = Number_toString m <-> n = m)
  /\ Number_toString n <> js "all"
  /\ Number_toString n <> []
  /\ parseInt (Number_toString n) = Some n.
Proof.
  split; [|split; [apply Number_toString_not_all|split;
                   [apply Number_toString_nonempty | apply parseInt_toString]]].
  split; [|congruence]. intros E.
  pose proof (parseInt_toString n) as Hn. rewrite E, parseInt_toString in Hn. congruence.
Qed.

(** ** Instances of the further conditional theorems *)

Lemma codePreview_short_is_code_witness :
  (length (JS.split 10%N (codigo ex_sort)) <= 6)%nat
  /\ SnippetCard.codePreview false ex_sort = codigo ex_sort.
Proof.
  assert (Hshort : (length (JS.split 10%N (codigo ex_sort)) <= 6)%nat)
    by (vm_compute; lia).
  split; [exact Hshort|].
  exact (proj1 (codePreview_short_is_code false ex_sort Hshort)).
Defined.

Lemma codePreview_long_truncates_witness :
  (6 < length (JS.split 10%N (codigo ex_long)))%nat
  /\ exists kept rest,
       codigo ex_long = kept ++ [10%N] ++ rest
       /\ SnippetCard.codePreview false ex_long = kept ++ [10%N] ++ js "...".
Proof.
  assert (Hlong : (6 < length (JS.split 10%N (codigo ex_long)))%nat)
    by (vm_compute; lia).
  split; [exact Hlong|].
  destruct (codePreview_long_truncates ex_long Hlong) as (kept & rest & Hc & Hp & _).
  exists kept, rest. split; assumption.
Defined.

Lemma applyFilters_more_tags_narrows_witness :
  (forall id, id ∈ tagIds [] -> id ∈ tagIds [ex_util])
  /\ sublist (@applyFilters asciiCase [ex_sort; ex_map] [] (js "all") [ex_util])
       (@applyFilters asciiCase [ex_sort; ex_map] [] (js "all") []).
Proof.
  assert (Hsub : forall id, id ∈ tagIds [] -> id ∈ tagIds [ex_util])
    by (intros id Hid; inversion Hid).
  split; [exact Hsub|].
  exact (@applyFilters_more_tags_narrows asciiCase [ex_sort; ex_map] [] (js "all")
           [] [ex_util] Hsub).
Defined.

Lemma applyFilters_tag_ids_only_witness :
  (forall id, id ∈ tagIds [ex_util] <-> id ∈ tagIds [ex_util; ex_util])
  /\ @applyFilters asciiCase [ex_sort; ex_map] [] (js "all") [ex_util]
     = @applyFilters asciiCase [ex_sort; ex_map] [] (js "all") [ex_util; ex_util].
Proof.
  assert (Hsame : forall id, id ∈ tagIds [ex_util] <-> id ∈ tagIds [ex_util; ex_util]).
  { intros id. simpl. rewrite !elem_of_cons. tauto. }
  split; [exact Hsame|].
  exact (@applyFilters_tag_ids_only asciiCase [ex_sort; ex_map] [] (js "all")
           [ex_util] [ex_util; ex_util] Hsame).
Defined.

Lemma found_by_own_text_witness :
  ex_sort ∈ [ex_sort; ex_map]
  /\ @SameNameCI asciiCase (titulo ex_sort) (js "SORT")
  /\ ex_sort ∈ @applyFilters asciiCase [ex_sort; ex_map] (js "SORT") (js "all") [].
Proof.
  assert (Hin : ex_sort ∈ [ex_sort; ex_map]) by left.
  assert (Hsame : @SameNameCI asciiCase (titulo ex_sort) (js "SORT"))
    by (vm_compute; reflexivity).
  split; [exact Hin|]. split; [exact Hsame|].
  exact (@found_by_own_text asciiCase [ex_sort; ex_map] (js "SORT") ex_sort Hin
           (or_introl Hsame)).
Defined.


Lemma addTagFilter_removeTagFilter_witness :
  (id_tag ex_util ∉ tagIds (DashboardState.selectedTags (dashboard (ex_store []))))
  /\ DashboardState.selectedTags
       (dashboard
          (exec (bind (Dashboard.onRender (fun r => Dashboard.addTagFilter r ex_util))
                   (fun _ => Dashboard.onRender
                               (fun r => Dashboard.removeTagFilter r (id_tag ex_util))))
             ex_backend (ex_store [])))
     = DashboardState.selectedTags (dashboard (ex_store [])).
Proof.
  assert (Hfresh : id_tag ex_util
                   ∉ tagIds (DashboardState.selectedTags (dashboard (ex_store []))))
    by (intros Hin; inversion Hin).
  split; [exact Hfresh|].
  exact (addTagFilter_removeTagFilter ex_backend (ex_store []) ex_util Hfresh).
Defined.

Lemma handleDelete_ignores_first_answer_witness :
  ex_links_undeletable (length (sent (ex_store []))) (DeleteSnippetTags (Some 5))
  = Fulfilled (Failure ex_offline)
  /\ ex_links_undeletable (S (length (sent (ex_store [])))) (DeleteSnippet 5)
     = Fulfilled (Success tt)
  /\ Dashboard.handleDelete None 5 ex_links_undeletable (ex_store [])
     = Dashboard.loadSnippets None ex_links_undeletable
         (mkStore (dashboard (ex_store [])) (form (ex_store []))
            (toasts (ex_store []) ++ [toastDeleted])
            (sent (ex_store []) ++ [DeleteSnippetTags (Some 5); DeleteSnippet 5])).
Proof.
  assert (H1 : ex_links_undeletable (length (sent (ex_store [])))
                 (DeleteSnippetTags (Some 5))
               = Fulfilled (Failure ex_offline)) by reflexivity.
  assert (H2 : ex_links_undeletable (S (length (sent (ex_store [])))) (DeleteSnippet 5)
               = Fulfilled (Success tt)) by reflexivity.
  split; [exact H1|]. split; [exact H2|].
  exact (handleDelete_ignores_first_answer None 5 ex_links_undeletable (ex_store [])
           (Failure ex_offline) tt H1 H2).
Defined.

Lemma handleDelete_reload_failure_keeps_list_witness :
  throws (Dashboard.loadSnippets_body None) ex_accepting
    (mkStore (dashboard (ex_store [])) (form (ex_store []))
       (toasts (ex_store []) ++ [toastDeleted])
       (sent (ex_store []) ++ [DeleteSnippetTags (Some 5); DeleteSnippet 5]))
    ex_type_error
  /\ dashboard (exec (Dashboard.handleDelete None 5) ex_accepting (ex_store []))
     = dashboard (ex_store []).
Proof.
  assert (H1 : ex_accepting (length (sent (ex_store []))) (DeleteSnippetTags (Some 5))
               = Fulfilled (Success tt)) by reflexivity.
  assert (H2 : ex_accepting (S (length (sent (ex_store [])))) (DeleteSnippet 5)
               = Fulfilled (Success tt)) by reflexivity.
  assert (H3 : throws (Dashboard.loadSnippets_body None) ex_accepting
                 (mkStore (dashboard (ex_store [])) (form (ex_store []))
                    (toasts (ex_store []) ++ [toastDeleted])
                    (sent (ex_store []) ++ [DeleteSnippetTags (Some 5); DeleteSnippet 5]))
                 ex_type_error) by reflexivity.
  split; [exact H3|].
  exact (proj1 (handleDelete_reload_failure_keeps_list None 5 ex_accepting (ex_store [])
                  (Success tt) tt ex_type_error H1 H2 H3)).
Defined.

Lemma handleSubmit_invalid_sends_nothing_witness :
  trim (FormState.titulo (FormState.formData (form (ex_store [])))) = []
  /\ SnippetForm.handleSubmit (mountedProps None true None) (Some ex_user)
       (form (ex_store [])) ex_accepting (ex_store [])
     = (Normal tt,
        mkStore (dashboard (ex_store [])) (form (ex_store []))
          (toasts (ex_store []) ++ [toastRequired]) (sent (ex_store [])))
  /\ SnippetForm.handleSubmit (mountedProps None true None) None ex_filled ex_accepting
       ex_filled_store
     = (Normal tt, ex_filled_store).
Proof.
  assert (Hblank : trim (FormState.titulo (FormState.formData (form (ex_store [])))) = [])
    by reflexivity.
  split; [exact Hblank|]. split.
  - exact (proj2 (handleSubmit_invalid_sends_nothing (mountedProps None true None) ex_user
                    (form (ex_store [])) ex_accepting (ex_store [])) (or_introl Hblank)).
  - exact (proj1 (handleSubmit_invalid_sends_nothing (mountedProps None true None) ex_user
                    ex_filled ex_accepting ex_filled_store)).
Defined.

Lemma handleSubmit_creates_witness :
  ex_accepting (length (sent ex_filled_store)) (insertOf ex_user ex_filled)
  = Fulfilled (Success {| inserted_id_snippet := 9 |})
  /\ sent (exec (SnippetForm.handleSubmit (mountedProps (Some ex_user) true None)
                   (Some ex_user) ex_filled) ex_accepting ex_filled_store)
     = [insertOf ex_user ex_filled; linksOf (Some 9) ex_filled; SelectSnippets (Some 42)].
Proof.
  assert (Ht : trim (FormState.titulo (FormState.formData ex_filled)) <> [])
    by (vm_compute; discriminate).
  assert (Hc : trim (FormState.codigo (FormState.formData ex_filled)) <> [])
    by (vm_compute; discriminate).
  assert (Hl : FormState.id_linguagem (FormState.formData ex_filled) <> 0)
    by (vm_compute; discriminate).
  assert (Hi : ex_accepting (length (sent ex_filled_store)) (insertOf ex_user ex_filled)
               = Fulfilled (Success {| inserted_id_snippet := 9 |})) by reflexivity.
  assert (Ha : FormState.selectedTags ex_filled <> [] ->
               ex_accepting (S (length (sent ex_filled_store)))
                 (linksOf (Some (inserted_id_snippet {| inserted_id_snippet := 9 |})) ex_filled)
               = Fulfilled (Success tt)) by reflexivity.
  split; [exact Hi|].
  unfold exec.
  rewrite (handleSubmit_creates (Some ex_user) true ex_user ex_filled ex_accepting
             ex_filled_store {| inserted_id_snippet := 9 |} tt Ht Hc Hl Hi Ha).
  vm_compute. reflexivity.
Defined.

Lemma handleSubmit_update_links_failure_witness :
  FormState.selectedTags ex_filled <> []
  /\ ex_links_failing (S (S (length (sent ex_filled_store))))
       (linksOf (SnippetForm.id_snippet ex_editing) ex_filled)
     = Fulfilled (Failure ex_offline)
  /\ SnippetForm.handleSubmit (mountedProps None true (Some ex_editing)) (Some ex_user)
       ex_filled ex_links_failing ex_filled_store
     = (Normal tt,
        mkStore (dashboard ex_filled_store)
          (FormState.with_loading false (form ex_filled_store))
          (toasts ex_filled_store ++ [toastSaveError ex_offline])
          (sent ex_filled_store
           ++ [updateOf ex_editing ex_filled;
               DeleteSnippetTags (SnippetForm.id_snippet ex_editing);
               linksOf (SnippetForm.id_snippet ex_editing) ex_filled])).
Proof.
  assert (Ht : trim (FormState.titulo (FormState.formData ex_filled)) <> [])
    by (vm_compute; discriminate).
  assert (Hc : trim (FormState.codigo (FormState.formData ex_filled)) <> [])
    by (vm_compute; discriminate).
  assert (Hl : FormState.id_linguagem (FormState.formData ex_filled) <> 0)
    by (vm_compute; discriminate).
  assert (Hs : FormState.selectedTags ex_filled <> []) by (vm_compute; discriminate).
  assert (Hu : ex_links_failing (length (sent ex_filled_store)) (updateOf ex_editing ex_filled)
               = Fulfilled (Success tt)) by reflexivity.
  assert (Hd : ex_links_failing (S (length (sent ex_filled_store)))
                 (DeleteSnippetTags (SnippetForm.id_snippet ex_editing))
               = Fulfilled (Success tt)) by reflexivity.
  assert (Hf : ex_links_failing (S (S (length (sent ex_filled_store))))
                 (linksOf (SnippetForm.id_snippet ex_editing) ex_filled)
               = Fulfilled (Failure ex_offline)) by reflexivity.
  split; [exact Hs|]. split; [exact Hf|].
  exact (handleSubmit_update_links_failure None true ex_editing ex_user ex_filled
           ex_links_failing ex_filled_store tt (Success tt) ex_offline
           Ht Hc Hl Hs Hu Hd (or_intror Hf)).
Defined.

Lemma edit_untouched_resubmits_snippet_witness :
  trim (SnippetForm.titulo ex_editing) <> []
  /\ SnippetForm.id_linguagem ex_editing <> 0
  /\ sent (exec (bind (SnippetForm.snippetEffect (mountedProps (Some ex_user) true
                                                   (Some ex_editing)))
                   (fun _ => SnippetForm.onRender
                               (SnippetForm.handleSubmit
                                  (mountedProps (Some ex_user) true (Some ex_editing))
                                  (Some ex_user))))
             ex_accepting (ex_store []))
     = [UpdateSnippet (Some 2) (js "Map") (Some (js "a lookup table"))
          (js "m := map[string]int{}") 2;
        DeleteSnippetTags (Some 2);
        InsertSnippetTags [(Some 2, 7)];
        SelectSnippets (Some 42)].
Proof.
  assert (Ht : trim (SnippetForm.titulo ex_editing) <> []) by (vm_compute; discriminate).
  assert (Hc : trim (SnippetForm.codigo ex_editing) <> []) by (vm_compute; discriminate).
  assert (Hl : SnippetForm.id_linguagem ex_editing <> 0) by (vm_compute; discriminate).
  split; [exact Ht|]. split; [exact Hl|].
  rewrite (proj1 (edit_untouched_resubmits_snippet (Some ex_user) true ex_editing ex_user
                    ex_accepting (ex_store []) tt tt (Success tt) Ht Hc Hl
                    eq_refl eq_refl (fun _ => eq_refl))).
  vm_compute. reflexivity.
Defined.
